(** * newt/cli/build_cmds.go: the build, clean and test commands

    A shallow embedding of [buildRunCmd], [cleanRunCmd] and [testRunCmd].
    The commands are orchestration code: every step is a call into another
    package (project, target and package resolution, the builder, the file
    system, the console).  Those packages are taken as an interface
    ([Collab]); the commands are written in a small monad that threads the
    process-wide state through the calls, records every call in a trace and
    stops at [os.Exit] or at a Go panic. *)

From Stdlib Require Import List String ZArith Lia Bool.
From ExtLib Require Import Structures.Monad.
Import ListNotations.
Import MonadNotation.
Local Open Scope string_scope.
Local Open Scope list_scope.
Local Open Scope monad_scope.

(** ** Values shared with the other packages *)

(** Modelled from the spec: util.NewtError is declared in package util,
    outside this file; the spec has a structured error carry a diagnostic
    string, which is the field [Text] that the test command reads. *)
Record NewtError := { Text : string }.

(** A Go [error] value that is not nil.  Its dynamic type is either
    [*util.NewtError] or some other error type (errors.New, an *os.PathError
    and so on), of which only the message is kept. *)
Inductive error :=
| NewtErr (e : NewtError)
| ForeignErr (msg : string).

(** Modelled from the spec: util.NewNewtError (and util.FmtNewtError once
    its format is filled in) is defined in package util; it makes the
    structured error whose diagnostic string is [msg]. *)
Definition NewNewtError (msg : string) : error := NewtErr {| Text := msg |}.

(** The type assertion of [err] to a pointer to util.NewtError: [None] is
    the run-time panic of a failed assertion. *)
Definition assertNewtError (err : error) : option NewtError :=
  match err with
  | NewtErr e => Some e
  | ForeignErr _ => None
  end.

(** The verbosity levels of [util.StatusMessage] that the commands use. *)
Inductive Verbosity := VERBOSITY_QUIET | VERBOSITY_DEFAULT | VERBOSITY_VERBOSE.

(** [*cobra.Command]: the command whose usage [NewtUsage] prints. *)
Record Command := { Use : string }.

(** [interfaces.PackageInterface]: the dynamic type of an entry of the
    project's package list is [*pkg.LocalPackage] or something else. *)
Inductive PackageInterface (L : Type) :=
| LocalPkg (p : L)
| OtherPkg.
Arguments LocalPkg {L} p.
Arguments OtherPkg {L}.

(** The type assertion of [pack] to a pointer to pkg.LocalPackage. *)
Definition assertLocalPackage {L} (pack : PackageInterface L) : option L :=
  match pack with
  | LocalPkg p => Some p
  | OtherPkg => None
  end.

(** The line feed that Go writes as backslash n in a string literal. *)
Definition LF : string := String (Ascii.ascii_of_nat 10) EmptyString.

Definition TARGET_TEST_NAME : string := "unittest".

(** Modelled from the spec: the constant TARGET_KEYWORD_ALL is declared in
    another file of package cli; the spec gives the reserved wildcard of the
    clean command as the name "all". *)
Definition TARGET_KEYWORD_ALL : string := "all".

(** How a computation ends: it returns, the process exits, or it panics. *)
Inductive result (A : Type) :=
| Ret (a : A)
| Exit (status : Z)
| Panic.
Arguments Ret {A} a.
Arguments Exit {A} status.
Arguments Panic {A}.

(** ** The collaborators

    [World] is everything the process can change: the global project, the
    builders' internals and the file system.  A call that may change it
    returns the new world; a call that only reads it does not. *)
Class Collab := {
  World : Type;
  Target : Type;
  Builder : Type;
  LocalPackage : Type;

  (* pkg.LocalPackage *)
  BasePath : LocalPackage -> string;
  FullName : LocalPackage -> string;
  Name : LocalPackage -> string;

  (* package project *)
  project_Initialize : World -> option error * World;
  project_ResetProject : World -> World;
  (* GetProject().PackageList(): a map from repository name to a map of
     packages, given in the order in which the two range loops visit it *)
  project_PackageList :
    World -> list (string * list (PackageInterface LocalPackage));

  (* package cli *)
  cli_ResolveTarget : string -> World -> option Target * World;
  cli_ResolvePackage : string -> World -> (LocalPackage + error) * World;
  PackageNameList : list LocalPackage -> string;

  (* package builder *)
  builder_NewBuilder : Target -> World -> (Builder + error) * World;
  builder_BinRoot : World -> string;
  Builder_Build : Builder -> World -> option error * World;
  Builder_Clean : Builder -> World -> option error * World;
  Builder_Test : Builder -> LocalPackage -> World -> option error * World;
  AppElfPath : Builder -> string;

  (* util.NodeExist and os.RemoveAll *)
  util_NodeExist : string -> World -> bool;
  os_RemoveAll : string -> World -> option error * World;

  (* the status with which NewtUsage ends the process *)
  usage_exit_status : Z;
  usage_exit_status_nonzero : usage_exit_status <> 0%Z
}.

Section Commands.

Context {C : Collab}.

(** ** Trace of the calls a command makes, with what each returned *)
Inductive Event :=
| EvInitialize (r : option error)
| EvResetProject
| EvPackageList
| EvResolveTarget (name : string) (r : option Target)
| EvResolvePackage (name : string) (r : LocalPackage + error)
| EvNewBuilder (t : Target) (r : Builder + error)
| EvBuild (b : Builder) (r : option error)
| EvClean (b : Builder) (r : option error)
| EvTest (b : Builder) (pack : LocalPackage) (r : option error)
| EvRemoveAll (path : string) (r : option error)
| EvStatus (v : Verbosity) (format : string) (args : list string)
| EvUsage (cmd : option Command) (err : option error).

(** ** The command monad *)

Definition M (A : Type) : Type := World -> result A * World * list Event.

Definition mret {A} (a : A) : M A := fun w => (Ret a, w, []).

Definition mbind {A B} (m : M A) (f : A -> M B) : M B := fun w =>
  match m w with
  | (Ret a, w1, t1) =>
      match f a w1 with
      | (r, w2, t2) => (r, w2, t1 ++ t2)
      end
  | (Exit st, w1, t1) => (Exit st, w1, t1)
  | (Panic, w1, t1) => (Panic, w1, t1)
  end.

#[export] Instance Monad_M : Monad M := {| ret := @mret; bind := @mbind |}.

(** A call that may change the world, logged with its result. *)
Definition call {A} (f : World -> A * World) (ev : A -> Event) : M A :=
  fun w => let (a, w') := f w in (Ret a, w', [ev a]).

Definition panic {A} : M A := fun w => (Panic, w, []).

(** ** The calls *)

Definition Initialize : M (option error) :=
  call project_Initialize EvInitialize.

Definition ResetProject : M unit :=
  fun w => (Ret tt, project_ResetProject w, [EvResetProject]).

Definition PackageList : M (list (string * list (PackageInterface LocalPackage))) :=
  fun w => (Ret (project_PackageList w), w, [EvPackageList]).

Definition ResolveTarget (name : string) : M (option Target) :=
  call (cli_ResolveTarget name) (EvResolveTarget name).

Definition ResolvePackage (name : string) : M (LocalPackage + error) :=
  call (cli_ResolvePackage name) (EvResolvePackage name).

Definition NewBuilder (t : Target) : M (Builder + error) :=
  call (builder_NewBuilder t) (EvNewBuilder t).

Definition BinRoot : M string := fun w => (Ret (builder_BinRoot w), w, []).

Definition Build (b : Builder) : M (option error) :=
  call (Builder_Build b) (EvBuild b).

Definition Clean (b : Builder) : M (option error) :=
  call (Builder_Clean b) (EvClean b).

Definition Test (b : Builder) (pack : LocalPackage) : M (option error) :=
  call (Builder_Test b pack) (EvTest b pack).

Definition NodeExist (path : string) : M bool :=
  fun w => (Ret (util_NodeExist path w), w, []).

Definition RemoveAll (path : string) : M (option error) :=
  call (os_RemoveAll path) (EvRemoveAll path).

(** util.StatusMessage(level, format, args...) *)
Definition StatusMessage (v : Verbosity) (format : string) (args : list string)
  : M unit :=
  fun w => (Ret tt, w, [EvStatus v format args]).

(** Modelled from the spec: NewtUsage is defined in another file of package
    cli; the spec has it report the error (and the usage of [cmd] when there
    is one) and end the process with a status that is not zero.  It does not
    return, so what follows the call in the source is not run. *)
Definition NewtUsage {A} (cmd : option Command) (err : option error) : M A :=
  fun w => (Exit usage_exit_status, w, [EvUsage cmd err]).

(** ** build_cmds.go *)

Definition pkgIsTestable (pack : LocalPackage) : M bool :=
  NodeExist (BasePath pack ++ "/src/test").

Definition buildRunCmd (cmd : Command) (args : list string) : M unit :=
  err <- Initialize ;;
  match err with
  | Some e => NewtUsage (Some cmd) (Some e)
  | None =>
  match args with
  | [] => NewtUsage (Some cmd) None
  | arg0 :: _ =>
  t <- ResolveTarget arg0 ;;
  match t with
  | None =>
      NewtUsage (Some cmd) (Some (NewNewtError ("invalid target name: " ++ arg0)))
  | Some t =>
  b <- NewBuilder t ;;
  match b with
  | inr e => NewtUsage None (Some e)
  | inl b =>
  err <- Build b ;;
  match err with
  | Some e => NewtUsage None (Some e)
  | None =>
  StatusMessage VERBOSITY_DEFAULT ("App successfully built: %s" ++ LF)
    [AppElfPath b]
  end end end end end.

(** Lines 76-86: the loop over the arguments of clean. *)
Fixpoint cleanClassify (cmd : Command) (args : list string)
    (cleanAll : bool) (targets : list Target) : M (bool * list Target) :=
  match args with
  | [] => ret (cleanAll, targets)
  | arg :: rest =>
      if String.eqb arg TARGET_KEYWORD_ALL then
        cleanClassify cmd rest true targets
      else
        t <- ResolveTarget arg ;;
        match t with
        | None =>
            NewtUsage (Some cmd)
              (Some (NewNewtError ("invalid target name: " ++ arg)))
        | Some t => cleanClassify cmd rest cleanAll (targets ++ [t])
        end
  end.

(** Lines 98-107: the loop over the resolved targets. *)
Fixpoint cleanTargets (cmd : Command) (targets : list Target) : M unit :=
  match targets with
  | [] => ret tt
  | t :: rest =>
      b <- NewBuilder t ;;
      match b with
      | inr e => NewtUsage (Some cmd) (Some e)
      | inl b =>
          err <- Clean b ;;
          match err with
          | Some e => NewtUsage (Some cmd) (Some e)
          | None => cleanTargets cmd rest
          end
      end
  end.

Definition cleanRunCmd (cmd : Command) (args : list string) : M unit :=
  err <- Initialize ;;
  match err with
  | Some e => NewtUsage (Some cmd) (Some e)
  | None =>
  match args with
  | [] => NewtUsage (Some cmd) (Some (NewNewtError "Must specify target"))
  | _ :: _ =>
  '(cleanAll, targets) <- cleanClassify cmd args false [] ;;
  if (cleanAll : bool) then
    path <- BinRoot ;;
    StatusMessage VERBOSITY_VERBOSE ("Cleaning directory %s" ++ LF) [path] ;;
    err <- RemoveAll path ;;
    match err with
    | Some e => NewtUsage (Some cmd) (Some e)
    | None => ret tt
    end
  else
    cleanTargets cmd targets
  end end.

(** Lines 120-133: the loop over the arguments of test. *)
Fixpoint testClassify (cmd : Command) (args : list string)
    (testAll : bool) (packs : list LocalPackage)
  : M (bool * list LocalPackage) :=
  match args with
  | [] => ret (testAll, packs)
  | pkgName :: rest =>
      if String.eqb pkgName "all" then
        testClassify cmd rest true packs
      else
        r <- ResolvePackage pkgName ;;
        match r with
        | inr e => NewtUsage (Some cmd) (Some e)
        | inl pack => testClassify cmd rest testAll (packs ++ [pack])
        end
  end.

(** Lines 138-144: the loop over the packages of one repository. *)
Fixpoint testablePackages (repoHash : list (PackageInterface LocalPackage))
    (packs : list LocalPackage) : M (list LocalPackage) :=
  match repoHash with
  | [] => ret packs
  | pack :: rest =>
      match assertLocalPackage pack with
      | None => panic
      | Some lclPack =>
          testable <- pkgIsTestable lclPack ;;
          testablePackages rest
            (if (testable : bool) then packs ++ [lclPack] else packs)
      end
  end.

(** Lines 137-145: the loop over the repositories. *)
Fixpoint testableRepos
    (repos : list (string * list (PackageInterface LocalPackage)))
    (packs : list LocalPackage) : M (list LocalPackage) :=
  match repos with
  | [] => ret packs
  | (_, repoHash) :: rest =>
      packs' <- testablePackages repoHash packs ;;
      testableRepos rest packs'
  end.

(** Lines 120-146: the packages to test. *)
Definition testSelect (cmd : Command) (args : list string)
  : M (list LocalPackage) :=
  '(testAll, packs) <- testClassify cmd args false [] ;;
  if (testAll : bool) then
    repos <- PackageList ;;
    testableRepos repos []
  else
    ret packs.

(** Lines 155-189: the body of the loop over the selected packages. *)
Definition testCycle (pack : LocalPackage)
    (passedPkgs failedPkgs : list LocalPackage)
  : M (list LocalPackage * list LocalPackage) :=
  ResetProject ;;
  t <- ResolveTarget TARGET_TEST_NAME ;;
  match t with
  | None =>
      NewtUsage None
        (Some (NewNewtError ("Can't find unit test target: " ++ TARGET_TEST_NAME)))
  | Some t =>
  b <- NewBuilder t ;;
  match b with
  | inr e => NewtUsage None (Some e)
  | inl b =>
  StatusMessage VERBOSITY_DEFAULT ("Testing package %s" ++ LF) [FullName pack] ;;
  newPack <- ResolvePackage (FullName pack) ;;
  match newPack with
  | inr _ =>
      NewtUsage None
        (Some (NewNewtError ("Failed to resolve package: " ++ Name pack)))
  | inl newPack =>
  let pack := newPack in
  err <- Test b pack ;;
  match err with
  | None => ret (passedPkgs ++ [pack], failedPkgs)
  | Some e =>
      match assertNewtError e with
      | None => panic
      | Some newtError =>
          StatusMessage VERBOSITY_QUIET (Text newtError) [] ;;
          ret (passedPkgs, failedPkgs ++ [pack])
      end
  end end end end.

(** Lines 154-190: the loop over the selected packages. *)
Fixpoint testCycles (packs passedPkgs failedPkgs : list LocalPackage)
  : M (list LocalPackage * list LocalPackage) :=
  match packs with
  | [] => ret (passedPkgs, failedPkgs)
  | pack :: rest =>
      '(passedPkgs', failedPkgs') <- testCycle pack passedPkgs failedPkgs ;;
      testCycles rest passedPkgs' failedPkgs'
  end.

(** Lines 192-201: the report.  fmt.Sprintf and util.FmtNewtError put the
    strings in the place of each %s of their format. *)
Definition testReport (passedPkgs failedPkgs : list LocalPackage) : M unit :=
  let passStr := ("Passed tests: [" ++ PackageNameList passedPkgs ++ "]")%string in
  let failStr := ("Failed tests: [" ++ PackageNameList failedPkgs ++ "]")%string in
  if Nat.ltb 0 (List.length failedPkgs) then
    NewtUsage None
      (Some (NewNewtError
               ("Test failure(s):" ++ LF ++ passStr ++ LF ++ failStr)))
  else
    StatusMessage VERBOSITY_DEFAULT ("%s" ++ LF) [passStr] ;;
    StatusMessage VERBOSITY_DEFAULT ("All tests passed" ++ LF) [].

(** Lines 152-201: the batch over the selected packages. *)
Definition testBatch (packs : list LocalPackage) : M unit :=
  '(passedPkgs, failedPkgs) <- testCycles packs [] [] ;;
  testReport passedPkgs failedPkgs.

Definition testRunCmd (cmd : Command) (args : list string) : M unit :=
  err <- Initialize ;;
  match err with
  | Some e => NewtUsage (Some cmd) (Some e)
  | None =>
  match args with
  | [] => NewtUsage (Some cmd) None
  | _ :: _ =>
  packs <- testSelect cmd args ;;
  match packs with
  | [] => NewtUsage None (Some (NewNewtError "No testable packages found"))
  | _ :: _ => testBatch packs
  end end end.

End Commands.

(** ** Reading a run *)

Definition outcome {C : Collab} {A} (run : result A * World * list Event)
  : result A := fst (fst run).

Definition final {C : Collab} {A} (run : result A * World * list Event)
  : World := snd (fst run).

Definition trace {C : Collab} {A} (run : result A * World * list Event)
  : list Event := snd run.

(** A run with the events [tr] in front of its trace. *)
Definition after {C : Collab} {A} (tr : list Event)
    (run : result A * World * list Event) : result A * World * list Event :=
  (outcome run, final run, tr ++ trace run).

(** Collecting from a trace what each event contributes. *)
Definition collect {C : Collab} {X} (f : Event -> list X) (tr : list Event)
  : list X := flat_map f tr.

(** The test actions of a trace: the package tested and what came back. *)
Definition tests {C : Collab} : list Event -> list (LocalPackage * option error) :=
  collect (fun ev => match ev with EvTest _ pack r => [(pack, r)] | _ => [] end).

(** The package resolutions of a trace that succeeded: name asked, package
    returned. *)
Definition resolutions {C : Collab} : list Event -> list (string * LocalPackage) :=
  collect (fun ev =>
             match ev with
             | EvResolvePackage name (inl pack) => [(name, pack)]
             | _ => []
             end).

(** The target resolutions of a trace that succeeded. *)
Definition resolvedTargets {C : Collab} : list Event -> list (string * Target) :=
  collect (fun ev =>
             match ev with
             | EvResolveTarget name (Some t) => [(name, t)]
             | _ => []
             end).

(** The builders a trace constructs: target given, builder returned. *)
Definition builders {C : Collab} : list Event -> list (Target * Builder) :=
  collect (fun ev =>
             match ev with
             | EvNewBuilder t (inl b) => [(t, b)]
             | _ => []
             end).

(** The builders on which a trace invokes Clean. *)
Definition cleans {C : Collab} : list Event -> list Builder :=
  collect (fun ev => match ev with EvClean b _ => [b] | _ => [] end).

(** The builders on which a trace invokes Build. *)
Definition builds {C : Collab} : list Event -> list Builder :=
  collect (fun ev => match ev with EvBuild b _ => [b] | _ => [] end).

(** The paths a trace removes with os.RemoveAll. *)
Definition removals {C : Collab} : list Event -> list string :=
  collect (fun ev => match ev with EvRemoveAll path _ => [path] | _ => [] end).



(** The events of a test cycle: reset, target and builder, test. *)
Definition isCycle {C : Collab} (ev : Event) : bool :=
  match ev with
  | EvResetProject | EvResolveTarget _ _ | EvNewBuilder _ _ | EvTest _ _ _ => true
  | _ => false
  end.

(** Events of package selection by the wildcard and of a test cycle. *)
Definition isSelectionOrCycle {C : Collab} (ev : Event) : bool :=
  match ev with
  | EvPackageList => true
  | _ => isCycle ev
  end.

(** A package resolution that succeeded. *)
Definition isPackageResolution {C : Collab} (ev : Event) : bool :=
  match ev with
  | EvResolvePackage _ (inl _) => true
  | _ => false
  end.

(** What the classification of the clean arguments can leave in the trace:
    target resolutions and the report of a fatal error. *)
Definition isResolveOrUsage {C : Collab} (ev : Event) : bool :=
  match ev with
  | EvResolveTarget _ _ | EvUsage _ _ => true
  | _ => false
  end.

(** The arguments without the wildcard. *)
Definition explicitNames (args : list string) : list string :=
  filter (fun arg => negb (String.eqb arg "all")) args.

(** Whether the wildcard is among the arguments. *)
Definition hasAll (args : list string) : bool :=
  existsb (fun arg => String.eqb arg "all") args.

Definition passedOf {C : Collab} (outs : list (LocalPackage * option error))
  : list LocalPackage :=
  map fst (filter (fun o => match snd o with None => true | Some _ => false end) outs).

Definition failedOf {C : Collab} (outs : list (LocalPackage * option error))
  : list LocalPackage :=
  map fst (filter (fun o => match snd o with None => false | Some _ => true end) outs).

(** The packages that the explicit names of [args] resolve to, one call after
    the other, and the world after the last call; [None] when a name does
    not resolve. The name "all" is not resolved. *)
Fixpoint resolveExplicit {C : Collab} (args : list string) (w : World)
  : option (list LocalPackage * World) :=
  match args with
  | [] => Some ([], w)
  | name :: rest =>
      if String.eqb name "all" then resolveExplicit rest w
      else
        match cli_ResolvePackage name w with
        | (inl pack, w1) =>
            match resolveExplicit rest w1 with
            | Some (packs, w2) => Some (pack :: packs, w2)
            | None => None
            end
        | (inr _, _) => None
        end
  end.

(** The same for the target names of clean. *)
Fixpoint resolveExplicitTargets {C : Collab} (args : list string) (w : World)
  : option (list Target * World) :=
  match args with
  | [] => Some ([], w)
  | name :: rest =>
      if String.eqb name TARGET_KEYWORD_ALL then resolveExplicitTargets rest w
      else
        match cli_ResolveTarget name w with
        | (Some t, w1) =>
            match resolveExplicitTargets rest w1 with
            | Some (ts, w2) => Some (t :: ts, w2)
            | None => None
            end
        | (None, _) => None
        end
  end.

(** The testable packages among those of one repository: the local packages
    whose base path has a src/test below it in world [w]. *)
Definition testableAmong {C : Collab} (w : World)
    (repoHash : list (PackageInterface LocalPackage)) : list LocalPackage :=
  flat_map
    (fun pack =>
       match pack with
       | LocalPkg p =>
           if util_NodeExist (BasePath p ++ "/src/test") w then [p] else []
       | OtherPkg => []
       end)
    repoHash.

(** The testable packages of the project in world [w], over every
    repository. *)
Definition testableOf {C : Collab} (w : World) : list LocalPackage :=
  flat_map (fun repo => testableAmong w (snd repo)) (project_PackageList w).

(** Whether every package of a repository is a local package. *)
Definition allLocal {C : Collab} (repoHash : list (PackageInterface LocalPackage))
  : bool :=
  forallb (fun pack => match pack with LocalPkg _ => true | OtherPkg => false end)
    repoHash.

(** The events of a test cycle for the selected package [pack] up to its
    test action: [t] is the unit test target, [b] the builder, [np] the
    package as resolved again and [r] what its test returned. *)
Definition cycleEvents {C : Collab} (pack : LocalPackage) (t : Target)
    (b : Builder) (np : LocalPackage) (r : option error) : list Event :=
  [EvResetProject;
   EvResolveTarget TARGET_TEST_NAME (Some t);
   EvNewBuilder t (inl b);
   EvStatus VERBOSITY_DEFAULT ("Testing package %s" ++ LF) [FullName pack];
   EvResolvePackage (FullName pack) (inl np);
   EvTest b np r].

(** The messages a trace prints at the quiet level. *)
Definition quietMessages {C : Collab} : list Event -> list string :=
  collect (fun ev =>
             match ev with
             | EvStatus VERBOSITY_QUIET format _ => [format]
             | _ => []
             end).

(** ** A small project to run the commands on *)

Module Toy.

Record world := {
  generation : nat;        (* how often the project was reset *)
  nodes : list string      (* the paths that exist *)
}.

Record target := { t_name : string; t_gen : nat }.

Record package := {
  p_full : string;
  p_name : string;
  p_base : string;
  p_gen : nat
}.

Definition exists_node (path : string) (w : world) : bool :=
  existsb (String.eqb path) (nodes w).

Definition mk_package (g : nat) (full name : string) : package :=
  {| p_full := full; p_name := name; p_base := full; p_gen := g |}.

(** What the project's manifest lists: full name and short name. *)
Definition manifest : list (string * string) :=
  [("libs/os", "os"); ("libs/json", "json"); ("libs/shell", "shell");
   ("libs/flaky", "flaky"); ("hw/hal", "hal")].

Definition initialize (w : world) : option error * world :=
  if exists_node "project.yml" w then (None, w)
  else (Some (NewNewtError "no project"), w).

Definition reset (w : world) : world :=
  {| generation := S (generation w); nodes := nodes w |}.

Definition package_list (w : world)
  : list (string * list (PackageInterface package)) :=
  [("local",
    map (fun e => LocalPkg (mk_package (generation w) (fst e) (snd e))) manifest)].

Definition resolve_target (name : string) (w : world) : option target * world :=
  if exists_node ("targets/" ++ name)%string w
  then (Some {| t_name := name; t_gen := generation w |}, w)
  else (None, w).

Definition resolve_package (name : string) (w : world)
  : (package + error) * world :=
  match find (fun e => String.eqb (fst e) name) manifest with
  | Some e => (inl (mk_package (generation w) (fst e) (snd e)), w)
  | None => (inr (NewNewtError ("unknown package: " ++ name)), w)
  end.

Fixpoint name_list (pkgs : list package) : string :=
  match pkgs with
  | [] => ""
  | [p] => p_name p
  | p :: rest => (p_name p ++ " " ++ name_list rest)%string
  end.

Definition new_builder (t : target) (w : world) : (target + error) * world :=
  if String.eqb (t_name t) "nobsp"
  then (inr (NewNewtError "no bsp"), w)
  else (inl t, w).

Definition build (b : target) (w : world) : option error * world :=
  if String.eqb (t_name b) "broken"
  then (Some (NewNewtError "compile error"), w)
  else (None, {| generation := generation w;
                 nodes := ("bin/" ++ t_name b ++ ".elf")%string :: nodes w |}).

Definition clean (b : target) (w : world) : option error * world :=
  (None, {| generation := generation w;
            nodes := filter (fun n => negb (String.eqb n ("bin/" ++ t_name b ++ ".elf")%string))
                       (nodes w) |}).

(** json fails with a structured error, shell with an error of another
    type, flaky fails in every odd generation. *)
Definition test (b : target) (p : package) (w : world) : option error * world :=
  if String.eqb (p_full p) "libs/json"
  then (Some (NewNewtError "Test failure(libs/json)"), w)
  else if String.eqb (p_full p) "libs/shell"
  then (Some (ForeignErr "exit status 2"), w)
  else if String.eqb (p_full p) "libs/flaky"
  then ((if Nat.odd (generation w) then Some (NewNewtError "flaky") else None), w)
  else (None, w).

Definition remove_all (path : string) (w : world) : option error * world :=
  (None, {| generation := generation w;
            nodes := filter (fun n => negb (String.prefix path n)) (nodes w) |}).

Definition one_nonzero : 1%Z <> 0%Z :=
  fun H : 1%Z = 0%Z =>
    eq_ind 1%Z (fun z => match z with Z0 => False | _ => True end) I 0%Z H.

#[export] Instance collab : Collab := {|
  World := world;
  Target := target;
  Builder := target;
  LocalPackage := package;
  BasePath := p_base;
  FullName := p_full;
  Name := p_name;
  project_Initialize := initialize;
  project_ResetProject := reset;
  project_PackageList := package_list;
  cli_ResolveTarget := resolve_target;
  cli_ResolvePackage := resolve_package;
  PackageNameList := name_list;
  builder_NewBuilder := new_builder;
  builder_BinRoot := fun _ => "bin";
  Builder_Build := build;
  Builder_Clean := clean;
  Builder_Test := test;
  AppElfPath := fun b => ("bin/" ++ t_name b ++ ".elf")%string;
  util_NodeExist := exists_node;
  os_RemoveAll := remove_all;
  usage_exit_status := 1%Z;
  usage_exit_status_nonzero := one_nonzero
|}.

(** The target and the builder named [name] of generation [g]. *)
Definition tgt (name : string) (g : nat) : @Target collab :=
  {| t_name := name; t_gen := g |}.

Definition bld (name : string) (g : nat) : @Builder collab :=
  {| t_name := name; t_gen := g |}.

(** The package [full] of generation [g]. *)
Definition pkg (g : nat) (full name : string) : @LocalPackage collab :=
  mk_package g full name.

(** A project with a unit test target, two more targets and tests for os,
    json, shell and flaky, not for hal. *)
Definition w0 : @World collab := {|
  generation := 0;
  nodes := ["project.yml"; "targets/unittest"; "targets/blinky";
            "targets/broken"; "targets/nobsp";
            "libs/os/src/test"; "libs/json/src/test"; "libs/shell/src/test";
            "libs/flaky/src/test"; "bin/blinky.elf"]
|}.

(** The same project without the unit test target. *)
Definition w_no_unittest : @World collab := {|
  generation := 0;
  nodes := ["project.yml"; "targets/blinky"; "libs/os/src/test"]
|}.

(** A project none of whose packages has tests. *)
Definition w_no_tests : @World collab := {|
  generation := 0;
  nodes := ["project.yml"; "targets/unittest"]
|}.

(** A directory that is no project. *)
Definition w_empty : @World collab := {| generation := 0; nodes := [] |}.

Definition cmd_build : Command := {| Use := "build" |}.
Definition cmd_clean : Command := {| Use := "clean" |}.
Definition cmd_test : Command := {| Use := "test" |}.

End Toy.

(** ** Further readers of a trace *)

(** What a test cycle holds of the current generation of the project: the
    target, the builder and the package resolved since the last reset. *)
Record Fresh {C : Collab} := {
  freshTarget : option Target;
  freshBuilder : option Builder;
  freshPackage : option LocalPackage
}.

Definition nothingFresh {C : Collab} : Fresh :=
  {| freshTarget := None; freshBuilder := None; freshPackage := None |}.

(** Whether a trace keeps to the generations of the project: a reset drops
    what was resolved before it; a builder is constructed from the target
    resolved last; a test runs with the builder constructed last and on the
    package resolved last, both since the last reset, and uses that builder
    up. *)
Fixpoint generationSafe {C : Collab} (f : Fresh) (tr : list Event) : Prop :=
  match tr with
  | [] => True
  | EvResetProject :: tr' => generationSafe nothingFresh tr'
  | EvResolveTarget _ r :: tr' =>
      generationSafe
        {| freshTarget := r; freshBuilder := freshBuilder f;
           freshPackage := freshPackage f |} tr'
  | EvNewBuilder t r :: tr' =>
      freshTarget f = Some t
      /\ generationSafe
           {| freshTarget := freshTarget f;
              freshBuilder := match r with inl b => Some b | inr _ => None end;
              freshPackage := freshPackage f |} tr'
  | EvResolvePackage _ r :: tr' =>
      generationSafe
        {| freshTarget := freshTarget f; freshBuilder := freshBuilder f;
           freshPackage := match r with inl p => Some p | inr _ => None end |}
        tr'
  | EvTest b pack _ :: tr' =>
      freshBuilder f = Some b /\ freshPackage f = Some pack
      /\ generationSafe
           {| freshTarget := freshTarget f; freshBuilder := None;
              freshPackage := freshPackage f |} tr'
  | _ :: tr' => generationSafe f tr'
  end.

(** The events the test command never leaves: a build, a clean, a removal. *)
Definition isBuildOrClean {C : Collab} (ev : Event) : bool :=
  match ev with
  | EvBuild _ _ | EvClean _ _ | EvRemoveAll _ _ => true
  | _ => false
  end.

(** The events the clean command never leaves: a build, a test, a reset, a
    package resolution, a reading of the package list. *)
Definition isBuildOrTest {C : Collab} (ev : Event) : bool :=
  match ev with
  | EvBuild _ _ | EvTest _ _ _ | EvResetProject | EvResolvePackage _ _
  | EvPackageList => true
  | _ => false
  end.

(** The events of the selection of the packages to test. *)
Definition isSelectEvent {C : Collab} (ev : Event) : bool :=
  match ev with
  | EvResolvePackage _ _ | EvPackageList | EvUsage _ _ => true
  | _ => false
  end.

(** The events of a report: a message or the end through NewtUsage. *)
Definition isReportEvent {C : Collab} (ev : Event) : bool :=
  match ev with
  | EvStatus _ _ _ | EvUsage _ _ => true
  | _ => false
  end.

(** The events of the loop of clean over the targets. *)
Definition isCleanLoopEvent {C : Collab} (ev : Event) : bool :=
  match ev with
  | EvNewBuilder _ _ | EvClean _ _ | EvUsage _ _ => true
  | _ => false
  end.

(** The collaborators [C] with another answer to util.NodeExist. *)
Definition withNodeExist (C : Collab) (f : string -> @World C -> bool) : Collab :=
  {| World := @World C;
     Target := @Target C;
     Builder := @Builder C;
     LocalPackage := @LocalPackage C;
     BasePath := @BasePath C;
     FullName := @FullName C;
     Name := @Name C;
     project_Initialize := @project_Initialize C;
     project_ResetProject := @project_ResetProject C;
     project_PackageList := @project_PackageList C;
     cli_ResolveTarget := @cli_ResolveTarget C;
     cli_ResolvePackage := @cli_ResolvePackage C;
     PackageNameList := @PackageNameList C;
     builder_NewBuilder := @builder_NewBuilder C;
     builder_BinRoot := @builder_BinRoot C;
     Builder_Build := @Builder_Build C;
     Builder_Clean := @Builder_Clean C;
     Builder_Test := @Builder_Test C;
     AppElfPath := @AppElfPath C;
     util_NodeExist := f;
     os_RemoveAll := @os_RemoveAll C;
     usage_exit_status := @usage_exit_status C;
     usage_exit_status_nonzero := @usage_exit_status_nonzero C |}.

(** ** A project with a package that is not local *)

Module ToyForeign.

(** The package list of [Toy] with an entry of another type in a second
    repository. *)
Definition package_list (w : Toy.world)
  : list (string * list (PackageInterface Toy.package)) :=
  Toy.package_list w ++ [("remote", [OtherPkg])].

#[export] Instance collab : Collab := {|
  World := Toy.world;
  Target := Toy.target;
  Builder := Toy.target;
  LocalPackage := Toy.package;
  BasePath := Toy.p_base;
  FullName := Toy.p_full;
  Name := Toy.p_name;
  project_Initialize := Toy.initialize;
  project_ResetProject := Toy.reset;
  project_PackageList := package_list;
  cli_ResolveTarget := Toy.resolve_target;
  cli_ResolvePackage := Toy.resolve_package;
  PackageNameList := Toy.name_list;
  builder_NewBuilder := Toy.new_builder;
  builder_BinRoot := fun _ => "bin";
  Builder_Build := Toy.build;
  Builder_Clean := Toy.clean;
  Builder_Test := Toy.test;
  AppElfPath := fun b => ("bin/" ++ Toy.t_name b ++ ".elf")%string;
  util_NodeExist := Toy.exists_node;
  os_RemoveAll := Toy.remove_all;
  usage_exit_status := 1%Z;
  usage_exit_status_nonzero := Toy.one_nonzero
|}.

Definition w0 : @World collab := Toy.w0.

Definition pkg (g : nat) (full name : string) : @LocalPackage collab :=
  Toy.mk_package g full name.

End ToyForeign.

(** ** The load, debug and size commands *)

(** The actions of a builder that these commands invoke. *)
Class ActionCollab (C : Collab) := {
  Builder_Load : Builder -> World -> option error * World;
  Builder_Debug : Builder -> World -> option error * World;
  Builder_Size : Builder -> World -> option error * World
}.

Section Actions.

Context {C : Collab} {AC : ActionCollab C}.

Inductive ActionEvent :=
| EvLoad (b : Builder) (r : option error)
| EvDebug (b : Builder) (r : option error)
| EvSize (b : Builder) (r : option error).

(** The command monad with the action events beside the events above. *)
Definition MA (A : Type) : Type :=
  World -> result A * World * list (Event + ActionEvent).

Definition maret {A} (a : A) : MA A := fun w => (Ret a, w, []).

Definition mabind {A B} (m : MA A) (f : A -> MA B) : MA B := fun w =>
  match m w with
  | (Ret a, w1, t1) =>
      match f a w1 with
      | (r, w2, t2) => (r, w2, t1 ++ t2)
      end
  | (Exit st, w1, t1) => (Exit st, w1, t1)
  | (Panic, w1, t1) => (Panic, w1, t1)
  end.

#[export] Instance Monad_MA : Monad MA := {| ret := @maret; bind := @mabind |}.

(** A computation of the command monad above, its events kept. *)
Definition base {A} (m : M A) : MA A := fun w =>
  match m w with
  | (r, w', tr) => (r, w', map inl tr)
  end.

(** An action of a builder, logged with its result. *)
Definition action (f : World -> option error * World)
    (ev : option error -> ActionEvent) : MA (option error) :=
  fun w => let (r, w') := f w in (Ret r, w', [inr (ev r)]).

Definition Load (b : Builder) : MA (option error) :=
  action (Builder_Load b) (EvLoad b).

Definition Debug (b : Builder) : MA (option error) :=
  action (Builder_Debug b) (EvDebug b).

Definition Size (b : Builder) : MA (option error) :=
  action (Builder_Size b) (EvSize b).

Definition loadRunCmd (cmd : Command) (args : list string) : MA unit :=
  err <- base Initialize ;;
  match err with
  | Some e => base (NewtUsage (Some cmd) (Some e))
  | None =>
  match args with
  | [] => base (NewtUsage (Some cmd) (Some (NewNewtError "Must specify target")))
  | arg0 :: _ =>
  t <- base (ResolveTarget arg0) ;;
  match t with
  | None =>
      base (NewtUsage (Some cmd)
              (Some (NewNewtError ("Invalid target name: " ++ arg0))))
  | Some t =>
  b <- base (NewBuilder t) ;;
  match b with
  | inr e => base (NewtUsage (Some cmd) (Some e))
  | inl b =>
  err <- Load b ;;
  match err with
  | Some e => base (NewtUsage (Some cmd) (Some e))
  | None => ret tt
  end end end end end.

Definition debugRunCmd (cmd : Command) (args : list string) : MA unit :=
  err <- base Initialize ;;
  match err with
  | Some e => base (NewtUsage (Some cmd) (Some e))
  | None =>
  match args with
  | [] => base (NewtUsage (Some cmd) (Some (NewNewtError "Must specify target")))
  | arg0 :: _ =>
  t <- base (ResolveTarget arg0) ;;
  match t with
  | None =>
      base (NewtUsage (Some cmd)
              (Some (NewNewtError ("Invalid target name: " ++ arg0))))
  | Some t =>
  b <- base (NewBuilder t) ;;
  match b with
  | inr e => base (NewtUsage (Some cmd) (Some e))
  | inl b =>
  err <- Debug b ;;
  match err with
  | Some e => base (NewtUsage (Some cmd) (Some e))
  | None => ret tt
  end end end end end.

Definition sizeRunCmd (cmd : Command) (args : list string) : MA unit :=
  err <- base Initialize ;;
  match err with
  | Some e => base (NewtUsage (Some cmd) (Some e))
  | None =>
  match args with
  | [] => base (NewtUsage (Some cmd) (Some (NewNewtError "Must specify target")))
  | arg0 :: _ =>
  t <- base (ResolveTarget arg0) ;;
  match t with
  | None =>
      base (NewtUsage (Some cmd)
              (Some (NewNewtError ("Invalid target name: " ++ arg0))))
  | Some t =>
  b <- base (NewBuilder t) ;;
  match b with
  | inr e => base (NewtUsage (Some cmd) (Some e))
  | inl b =>
  err <- Size b ;;
  match err with
  | Some e => base (NewtUsage (Some cmd) (Some e))
  | None => ret tt
  end end end end end.

End Actions.

(** What a command of this kind does with one action of the builder:
    [run] is the command, [act] the action and [ev] its event.  Every
    failure ends the process through NewtUsage with the usage of the
    command; a run without failure invokes the action once, prints nothing
    and returns. *)
Definition dispatchesTo {C : Collab} {AC : ActionCollab C}
    (run : Command -> list string -> MA unit)
    (act : Builder -> World -> option error * World)
    (ev : Builder -> option error -> ActionEvent) : Prop :=
  forall (cmd : Command) (args : list string) (w : World),
    match project_Initialize w with
    | (Some e, w1) =>
        run cmd args w
        = (Exit usage_exit_status, w1,
           [inl (EvInitialize (Some e)); inl (EvUsage (Some cmd) (Some e))])
    | (None, w1) =>
        match args with
        | [] =>
            run cmd args w
            = (Exit usage_exit_status, w1,
               [inl (EvInitialize None);
                inl (EvUsage (Some cmd)
                       (Some (NewNewtError "Must specify target")))])
        | arg0 :: _ =>
            match cli_ResolveTarget arg0 w1 with
            | (None, w2) =>
                run cmd args w
                = (Exit usage_exit_status, w2,
                   [inl (EvInitialize None); inl (EvResolveTarget arg0 None);
                    inl (EvUsage (Some cmd)
                           (Some (NewNewtError
                                    ("Invalid target name: " ++ arg0))))])
            | (Some t, w2) =>
                match builder_NewBuilder t w2 with
                | (inr e, w3) =>
                    run cmd args w
                    = (Exit usage_exit_status, w3,
                       [inl (EvInitialize None);
                        inl (EvResolveTarget arg0 (Some t));
                        inl (EvNewBuilder t (inr e));
                        inl (EvUsage (Some cmd) (Some e))])
                | (inl b, w3) =>
                    match act b w3 with
                    | (Some e, w4) =>
                        run cmd args w
                        = (Exit usage_exit_status, w4,
                           [inl (EvInitialize None);
                            inl (EvResolveTarget arg0 (Some t));
                            inl (EvNewBuilder t (inl b));
                            inr (ev b (Some e));
                            inl (EvUsage (Some cmd) (Some e))])
                    | (None, w4) =>
                        run cmd args w
                        = (Ret tt, w4,
                           [inl (EvInitialize None);
                            inl (EvResolveTarget arg0 (Some t));
                            inl (EvNewBuilder t (inl b));
                            inr (ev b None)])
                    end
                end
            end
        end
    end.

(** Builders for [Toy]: load needs the image of the target under bin, size
    fails for the target "broken", debug always opens. *)
Module ToyActions.

Definition load (b : @Builder Toy.collab) (w : @World Toy.collab)
  : option error * @World Toy.collab :=
  if Toy.exists_node ("bin/" ++ Toy.t_name b ++ ".elf")%string w
  then (None, w)
  else (Some (NewNewtError "no image"), w).

Definition debug (b : @Builder Toy.collab) (w : @World Toy.collab)
  : option error * @World Toy.collab :=
  (None, w).

Definition size (b : @Builder Toy.collab) (w : @World Toy.collab)
  : option error * @World Toy.collab :=
  if String.eqb (Toy.t_name b) "broken"
  then (Some (NewNewtError "no map file"), w)
  else (None, w).

#[export] Instance actions : ActionCollab Toy.collab := {|
  Builder_Load := load;
  Builder_Debug := debug;
  Builder_Size := size
|}.

Definition cmd_load : Command := {| Use := "load" |}.
Definition cmd_size : Command := {| Use := "size" |}.

End ToyActions.

(** ** A project in which things go wrong half way *)

Module ToyFaulty.

(** The tests of wrecker and jammer pass but damage the project: the first
    deletes the unit test target, the second leaves a lock that keeps any
    builder from being constructed.  The test of json fails.  The builder
    of the target "broken" cannot clean. *)
Definition manifest : list (string * string) :=
  [("libs/os", "os"); ("libs/wrecker", "wrecker"); ("libs/jammer", "jammer");
   ("libs/json", "json")].

Definition resolve_package (name : string) (w : Toy.world)
  : (Toy.package + error) * Toy.world :=
  match find (fun e => String.eqb (fst e) name) manifest with
  | Some e => (inl (Toy.mk_package (Toy.generation w) (fst e) (snd e)), w)
  | None => (inr (NewNewtError ("unknown package: " ++ name)), w)
  end.

Definition package_list (w : Toy.world)
  : list (string * list (PackageInterface Toy.package)) :=
  [("local",
    map (fun e => LocalPkg (Toy.mk_package (Toy.generation w) (fst e) (snd e)))
      manifest)].

Definition new_builder (t : Toy.target) (w : Toy.world)
  : (Toy.target + error) * Toy.world :=
  if Toy.exists_node "bsp.lock" w
  then (inr (NewNewtError "bsp locked"), w)
  else Toy.new_builder t w.

Definition clean (b : Toy.target) (w : Toy.world) : option error * Toy.world :=
  if String.eqb (Toy.t_name b) "broken"
  then (Some (NewNewtError "cannot clean"), w)
  else Toy.clean b w.

Definition test (b : Toy.target) (p : Toy.package) (w : Toy.world)
  : option error * Toy.world :=
  if String.eqb (Toy.p_full p) "libs/wrecker"
  then (None,
        {| Toy.generation := Toy.generation w;
           Toy.nodes := filter (fun n => negb (String.eqb n "targets/unittest"))
                          (Toy.nodes w) |})
  else if String.eqb (Toy.p_full p) "libs/jammer"
  then (None,
        {| Toy.generation := Toy.generation w;
           Toy.nodes := "bsp.lock" :: Toy.nodes w |})
  else if String.eqb (Toy.p_full p) "libs/json"
  then (Some (NewNewtError "Test failure(libs/json)"), w)
  else (None, w).

#[export] Instance collab : Collab := {|
  World := Toy.world;
  Target := Toy.target;
  Builder := Toy.target;
  LocalPackage := Toy.package;
  BasePath := Toy.p_base;
  FullName := Toy.p_full;
  Name := Toy.p_name;
  project_Initialize := Toy.initialize;
  project_ResetProject := Toy.reset;
  project_PackageList := package_list;
  cli_ResolveTarget := Toy.resolve_target;
  cli_ResolvePackage := resolve_package;
  PackageNameList := Toy.name_list;
  builder_NewBuilder := new_builder;
  builder_BinRoot := fun _ => "bin";
  Builder_Build := Toy.build;
  Builder_Clean := clean;
  Builder_Test := test;
  AppElfPath := fun b => ("bin/" ++ Toy.t_name b ++ ".elf")%string;
  util_NodeExist := Toy.exists_node;
  os_RemoveAll := Toy.remove_all;
  usage_exit_status := 1%Z;
  usage_exit_status_nonzero := Toy.one_nonzero
|}.

Definition w0 : @World collab := Toy.w0.

Definition tgt (name : string) (g : nat) : @Target collab :=
  {| Toy.t_name := name; Toy.t_gen := g |}.

Definition bld (name : string) (g : nat) : @Builder collab :=
  {| Toy.t_name := name; Toy.t_gen := g |}.

Definition pkg (g : nat) (full name : string) : @LocalPackage collab :=
  Toy.mk_package g full name.

End ToyFaulty.

(** ** The UDP transport *)

Module Udp.

(** An error a method of the transport returns: one made by
    nmxutil.NewXportError, or one made by fmt.Errorf, each with its text. *)
Inductive error :=
| XportError (text : string)
| ErrorString (text : string).

(** nmxutil.NewXportError(text) *)
Definition NewXportError (text : string) : error := XportError text.

Record UdpXport := { started : bool }.

Definition NewUdpXport : UdpXport := {| started := false |}.

(** The methods change the transport they are called on: each returns its
    error (or none) and the transport after the call. *)
Definition Start (ux : UdpXport) : option error * UdpXport :=
  if started ux then
    (Some (NewXportError "UDP xport started twice"), ux)
  else
    (None, {| started := true |}).

Definition Stop (ux : UdpXport) : option error * UdpXport :=
  if negb (started ux) then
    (Some (NewXportError "UDP xport stopped twice"), ux)
  else
    (None, {| started := false |}).

Definition Tx (ux : UdpXport) (bytes : list Byte.byte) : option error * UdpXport :=
  (Some (ErrorString "unsupported"), ux).

(** A call of one of the methods. *)
Inductive Call :=
| CallStart
| CallStop
| CallTx (bytes : list Byte.byte).

Definition doCall (c : Call) (ux : UdpXport) : option error * UdpXport :=
  match c with
  | CallStart => Start ux
  | CallStop => Stop ux
  | CallTx bytes => Tx ux bytes
  end.

(** A sequence of calls on one transport: what each returned, and the
    transport in the end. *)
Fixpoint doCalls (cs : list Call) (ux : UdpXport)
  : list (option error) * UdpXport :=
  match cs with
  | [] => ([], ux)
  | c :: cs' =>
      let (r, ux1) := doCall c ux in
      let (rs, ux2) := doCalls cs' ux1 in
      (r :: rs, ux2)
  end.

(** The calls of a sequence that returned no error, in order. *)
Fixpoint succeeded (cs : list Call) (rs : list (option error)) : list Call :=
  match cs, rs with
  | c :: cs', None :: rs' => c :: succeeded cs' rs'
  | _ :: cs', Some _ :: rs' => succeeded cs' rs'
  | _, _ => []
  end.

Definition isStart (c : Call) : bool :=
  match c with CallStart => true | _ => false end.

Definition isStop (c : Call) : bool :=
  match c with CallStop => true | _ => false end.

Definition isTx (c : Call) : bool :=
  match c with CallTx _ => true | _ => false end.

(** Starts and stops in turn, the next one due being a start when [next] is
    true. *)
Fixpoint alternates (next : bool) (cs : list Call) : bool :=
  match cs with
  | [] => true
  | CallStart :: cs' => next && alternates false cs'
  | CallStop :: cs' => negb next && alternates true cs'
  | CallTx _ :: _ => false
  end.

End Udp.

(** ** Running the monad *)

Section Running.

Context {C : Collab}.

Lemma run_bind {A B} (m : M A) (f : A -> M B) (w : World) :
  (x <- m ;; f x) w =
  match m w with
  | (Ret a, w1, t1) => after t1 (f a w1)
  | (Exit st, w1, t1) => (Exit st, w1, t1)
  | (Panic, w1, t1) => (Panic, w1, t1)
  end.
Proof.
  cbn. unfold mbind, after, outcome, final, trace.
  destruct (m w) as [[[a | st |] w1] t1]; try reflexivity.
  destruct (f a w1) as [[r w2] t2]. reflexivity.
Qed.

Lemma run_call {A} (f : World -> A * World) (ev : A -> Event) (w : World) :
  call f ev w = (Ret (fst (f w)), snd (f w), [ev (fst (f w))]).
Proof. unfold call. destruct (f w). reflexivity. Qed.

Lemma run_bind_call {A B} (f : World -> A * World) (ev : A -> Event)
    (k : A -> M B) (w : World) (a : A) (w1 : World) :
  f w = (a, w1) ->
  (x <- call f ev ;; k x) w = after [ev a] (k a w1).
Proof. intros H. rewrite run_bind, run_call, H. reflexivity. Qed.

Lemma after_nil {A} (run : result A * World * list Event) : after [] run = run.
Proof. destruct run as [[r w] t]. reflexivity. Qed.

Lemma after_after {A} t1 t2 (run : result A * World * list Event) :
  after t1 (after t2 run) = after (t1 ++ t2) run.
Proof. unfold after, outcome, final, trace. cbn. now rewrite app_assoc. Qed.

Lemma after_triple {A} t1 (r : result A) (w : World) t2 :
  after t1 (r, w, t2) = (r, w, t1 ++ t2).
Proof. reflexivity. Qed.

End Running.

(** ** Proof steps *)

Lemma run_bind_ret {C : Collab} {A B} (m : M A) (f : A -> M B) (w : World)
    (a : A) (w1 : World) (t1 : list Event) :
  m w = (Ret a, w1, t1) ->
  (x <- m ;; f x) w = after t1 (f a w1).
Proof. intros H. rewrite run_bind, H. reflexivity. Qed.

(** [step H] runs the next call of the command with the result [H] gives. *)
Ltac step H := rewrite (run_bind_call _ _ _ _ _ _ H); cbn beta iota.

(** [pure_step] runs a next action whose result does not depend on a call. *)
Ltac pure_step :=
  erewrite run_bind_ret by reflexivity; cbn beta iota.

Ltac finish := repeat rewrite after_triple; cbn [app]; reflexivity.

(** ** The build command *)

(** C8. What build does, case by case: a failing initialization, no
    argument, a first argument that is no target, a builder that cannot be
    constructed and a failing Build each end the process through NewtUsage
    with a status that is not zero; otherwise Build runs once and the path
    of the artifact is printed. Build is never invoked more than once. *)
Theorem buildRunCmd_outcomes {C : Collab} (cmd : Command) (args : list string)
    (w : World) :
  let run := buildRunCmd cmd args w in
  (forall e w1,
      project_Initialize w = (Some e, w1) ->
      run = (Exit usage_exit_status, w1,
             [EvInitialize (Some e); EvUsage (Some cmd) (Some e)]))
  /\ (forall w1,
      project_Initialize w = (None, w1) -> args = [] ->
      run = (Exit usage_exit_status, w1,
             [EvInitialize None; EvUsage (Some cmd) None]))
  /\ (forall w1 arg0 rest w2,
      project_Initialize w = (None, w1) -> args = arg0 :: rest ->
      cli_ResolveTarget arg0 w1 = (None, w2) ->
      run = (Exit usage_exit_status, w2,
             [EvInitialize None; EvResolveTarget arg0 None;
              EvUsage (Some cmd)
                (Some (NewNewtError ("invalid target name: " ++ arg0)))]))
  /\ (forall w1 arg0 rest t w2 e w3,
      project_Initialize w = (None, w1) -> args = arg0 :: rest ->
      cli_ResolveTarget arg0 w1 = (Some t, w2) ->
      builder_NewBuilder t w2 = (inr e, w3) ->
      run = (Exit usage_exit_status, w3,
             [EvInitialize None; EvResolveTarget arg0 (Some t);
              EvNewBuilder t (inr e); EvUsage None (Some e)]))
  /\ (forall w1 arg0 rest t w2 b w3 e w4,
      project_Initialize w = (None, w1) -> args = arg0 :: rest ->
      cli_ResolveTarget arg0 w1 = (Some t, w2) ->
      builder_NewBuilder t w2 = (inl b, w3) ->
      Builder_Build b w3 = (Some e, w4) ->
      run = (Exit usage_exit_status, w4,
             [EvInitialize None; EvResolveTarget arg0 (Some t);
              EvNewBuilder t (inl b); EvBuild b (Some e);
              EvUsage None (Some e)]))
  /\ (forall w1 arg0 rest t w2 b w3 w4,
      project_Initialize w = (None, w1) -> args = arg0 :: rest ->
      cli_ResolveTarget arg0 w1 = (Some t, w2) ->
      builder_NewBuilder t w2 = (inl b, w3) ->
      Builder_Build b w3 = (None, w4) ->
      run = (Ret tt, w4,
             [EvInitialize None; EvResolveTarget arg0 (Some t);
              EvNewBuilder t (inl b); EvBuild b None;
              EvStatus VERBOSITY_DEFAULT ("App successfully built: %s" ++ LF)
                [AppElfPath b]]))
  /\ List.length (builds (trace run)) <= 1
  /\ usage_exit_status <> 0%Z.
Proof.
  assert (Hfail : forall e w1,
      project_Initialize w = (Some e, w1) ->
      buildRunCmd cmd args w =
      (Exit usage_exit_status, w1,
       [EvInitialize (Some e); EvUsage (Some cmd) (Some e)])).
  { intros e w1 H. unfold buildRunCmd, Initialize. step H. finish. }
  assert (Hnoarg : forall w1,
      project_Initialize w = (None, w1) -> args = [] ->
      buildRunCmd cmd args w =
      (Exit usage_exit_status, w1,
       [EvInitialize None; EvUsage (Some cmd) None])).
  { intros w1 H ->. unfold buildRunCmd, Initialize. step H. finish. }
  assert (Hnotarget : forall w1 arg0 rest w2,
      project_Initialize w = (None, w1) -> args = arg0 :: rest ->
      cli_ResolveTarget arg0 w1 = (None, w2) ->
      buildRunCmd cmd args w =
      (Exit usage_exit_status, w2,
       [EvInitialize None; EvResolveTarget arg0 None;
        EvUsage (Some cmd)
          (Some (NewNewtError ("invalid target name: " ++ arg0)))])).
  { intros w1 arg0 rest w2 H -> Ht.
    unfold buildRunCmd, Initialize, ResolveTarget. step H. step Ht. finish. }
  assert (Hnobuilder : forall w1 arg0 rest t w2 e w3,
      project_Initialize w = (None, w1) -> args = arg0 :: rest ->
      cli_ResolveTarget arg0 w1 = (Some t, w2) ->
      builder_NewBuilder t w2 = (inr e, w3) ->
      buildRunCmd cmd args w =
      (Exit usage_exit_status, w3,
       [EvInitialize None; EvResolveTarget arg0 (Some t);
        EvNewBuilder t (inr e); EvUsage None (Some e)])).
  { intros w1 arg0 rest t w2 e w3 H -> Ht Hb.
    unfold buildRunCmd, Initialize, ResolveTarget, NewBuilder.
    step H. step Ht. step Hb. finish. }
  assert (Hbuildfails : forall w1 arg0 rest t w2 b w3 e w4,
      project_Initialize w = (None, w1) -> args = arg0 :: rest ->
      cli_ResolveTarget arg0 w1 = (Some t, w2) ->
      builder_NewBuilder t w2 = (inl b, w3) ->
      Builder_Build b w3 = (Some e, w4) ->
      buildRunCmd cmd args w =
      (Exit usage_exit_status, w4,
       [EvInitialize None; EvResolveTarget arg0 (Some t);
        EvNewBuilder t (inl b); EvBuild b (Some e);
        EvUsage None (Some e)])).
  { intros w1 arg0 rest t w2 b w3 e w4 H -> Ht Hb He.
    unfold buildRunCmd, Initialize, ResolveTarget, NewBuilder, Build.
    step H. step Ht. step Hb. step He. finish. }
  assert (Hbuilt : forall w1 arg0 rest t w2 b w3 w4,
      project_Initialize w = (None, w1) -> args = arg0 :: rest ->
      cli_ResolveTarget arg0 w1 = (Some t, w2) ->
      builder_NewBuilder t w2 = (inl b, w3) ->
      Builder_Build b w3 = (None, w4) ->
      buildRunCmd cmd args w =
      (Ret tt, w4,
       [EvInitialize None; EvResolveTarget arg0 (Some t);
        EvNewBuilder t (inl b); EvBuild b None;
        EvStatus VERBOSITY_DEFAULT ("App successfully built: %s" ++ LF)
          [AppElfPath b]])).
  { intros w1 arg0 rest t w2 b w3 w4 H -> Ht Hb He.
    unfold buildRunCmd, Initialize, ResolveTarget, NewBuilder, Build.
    step H. step Ht. step Hb. step He. finish. }
  cbv zeta. repeat split; try assumption.
  - destruct (project_Initialize w) as [[e |] w1] eqn:H.
    { rewrite (Hfail _ _ eq_refl). cbn. lia. }
    destruct args as [| arg0 rest].
    { rewrite (Hnoarg _ eq_refl eq_refl). cbn. lia. }
    destruct (cli_ResolveTarget arg0 w1) as [[t |] w2] eqn:Ht.
    2: { rewrite (Hnotarget _ _ _ _ eq_refl eq_refl Ht). cbn. lia. }
    destruct (builder_NewBuilder t w2) as [[b | e] w3] eqn:Hb.
    2: { rewrite (Hnobuilder _ _ _ _ _ _ _ eq_refl eq_refl Ht Hb). cbn. lia. }
    destruct (Builder_Build b w3) as [[e |] w4] eqn:He.
    + rewrite (Hbuildfails _ _ _ _ _ _ _ _ _ eq_refl eq_refl Ht Hb He). cbn. lia.
    + rewrite (Hbuilt _ _ _ _ _ _ _ _ eq_refl eq_refl Ht Hb He). cbn. lia.
  - exact usage_exit_status_nonzero.
Qed.

Lemma buildRunCmd_outcomes_witness :
  buildRunCmd Toy.cmd_build ["blinky"; "ignored"] Toy.w0 =
    (Ret tt,
     snd (Toy.build (Toy.bld "blinky" 0) Toy.w0),
     [EvInitialize None;
      EvResolveTarget "blinky" (Some (Toy.tgt "blinky" 0));
      EvNewBuilder (Toy.tgt "blinky" 0) (inl (Toy.bld "blinky" 0));
      EvBuild (Toy.bld "blinky" 0) None;
      EvStatus VERBOSITY_DEFAULT ("App successfully built: %s" ++ LF)
        ["bin/blinky.elf"]])
  /\ outcome (buildRunCmd Toy.cmd_build ["broken"] Toy.w0) = Exit 1%Z
  /\ outcome (buildRunCmd Toy.cmd_build ["nosuch"] Toy.w0) = Exit 1%Z
  /\ outcome (buildRunCmd Toy.cmd_build [] Toy.w0) = Exit 1%Z
  /\ outcome (buildRunCmd Toy.cmd_build ["blinky"] Toy.w_empty) = Exit 1%Z.
Proof.
  split; [| split; [| split; [| split]]].
  - destruct (buildRunCmd_outcomes (C := Toy.collab) Toy.cmd_build
                ["blinky"; "ignored"] Toy.w0) as (_ & _ & _ & _ & _ & H & _).
    eapply H; reflexivity.
  - destruct (buildRunCmd_outcomes (C := Toy.collab) Toy.cmd_build
                ["broken"] Toy.w0) as (_ & _ & _ & _ & H & _).
    erewrite H; reflexivity.
  - destruct (buildRunCmd_outcomes (C := Toy.collab) Toy.cmd_build
                ["nosuch"] Toy.w0) as (_ & _ & H & _).
    erewrite H; reflexivity.
  - destruct (buildRunCmd_outcomes (C := Toy.collab) Toy.cmd_build
                [] Toy.w0) as (_ & H & _).
    erewrite H; reflexivity.
  - destruct (buildRunCmd_outcomes (C := Toy.collab) Toy.cmd_build
                ["blinky"] Toy.w_empty) as (H & _).
    erewrite H; reflexivity.
Defined.

(** ** One test cycle *)

Section Cycle.

Context {C : Collab}.

Variables (pack : LocalPackage) (passed failed : list LocalPackage) (w : World).

Lemma cycle_no_target w2 :
  cli_ResolveTarget TARGET_TEST_NAME (project_ResetProject w) = (None, w2) ->
  testCycle pack passed failed w =
  (Exit usage_exit_status, w2,
   [EvResetProject; EvResolveTarget TARGET_TEST_NAME None;
    EvUsage None
      (Some (NewNewtError ("Can't find unit test target: " ++ TARGET_TEST_NAME)))]).
Proof.
  intros Ht. unfold testCycle, ResolveTarget.
  pure_step. step Ht. finish.
Qed.

Variables (t : Target) (w2 : World).
Hypothesis Htarget :
  cli_ResolveTarget TARGET_TEST_NAME (project_ResetProject w) = (Some t, w2).

Lemma cycle_no_builder e w3 :
  builder_NewBuilder t w2 = (inr e, w3) ->
  testCycle pack passed failed w =
  (Exit usage_exit_status, w3,
   [EvResetProject; EvResolveTarget TARGET_TEST_NAME (Some t);
    EvNewBuilder t (inr e); EvUsage None (Some e)]).
Proof.
  intros Hb. unfold testCycle, ResolveTarget, NewBuilder.
  pure_step. step Htarget. step Hb. finish.
Qed.

Variables (b : Builder) (w3 : World).
Hypothesis Hbuilder : builder_NewBuilder t w2 = (inl b, w3).

Lemma cycle_unresolved e w4 :
  cli_ResolvePackage (FullName pack) w3 = (inr e, w4) ->
  testCycle pack passed failed w =
  (Exit usage_exit_status, w4,
   [EvResetProject; EvResolveTarget TARGET_TEST_NAME (Some t);
    EvNewBuilder t (inl b);
    EvStatus VERBOSITY_DEFAULT ("Testing package %s" ++ LF) [FullName pack];
    EvResolvePackage (FullName pack) (inr e);
    EvUsage None
      (Some (NewNewtError ("Failed to resolve package: " ++ Name pack)))]).
Proof.
  intros Hp. unfold testCycle, ResolveTarget, NewBuilder, ResolvePackage.
  pure_step. step Htarget. step Hbuilder. pure_step. step Hp. finish.
Qed.

Variables (np : LocalPackage) (w4 : World).
Hypothesis Hpackage : cli_ResolvePackage (FullName pack) w3 = (inl np, w4).

Lemma cycle_tested r w5 :
  Builder_Test b np w4 = (r, w5) ->
  testCycle pack passed failed w =
  after (cycleEvents pack t b np r)
    (match r with
     | None => (Ret (passed ++ [np], failed), w5, [])
     | Some (NewtErr e) =>
         (Ret (passed, failed ++ [np]), w5, [EvStatus VERBOSITY_QUIET (Text e) []])
     | Some (ForeignErr _) => (Panic, w5, [])
     end).
Proof.
  intros Hr. unfold testCycle, ResolveTarget, NewBuilder, ResolvePackage, Test.
  pure_step. step Htarget. step Hbuilder. pure_step. step Hpackage. step Hr.
  repeat rewrite after_after. cbn [app]. unfold cycleEvents.
  destruct r as [[e | msg] |]; reflexivity.
Qed.

End Cycle.

Section CycleCases.

Context {C : Collab}.

(** Where a run that starts with the events [tr] came from. *)
Lemma after_inv {A} (tr : list Event) (run : result A * World * list Event)
    (r : result A) (w : World) (tr' : list Event) :
  after tr run = (r, w, tr') ->
  exists tr2, run = (r, w, tr2) /\ tr' = tr ++ tr2.
Proof.
  destruct run as [[r0 w0] t0]. unfold after, outcome, final, trace. cbn.
  intros H. injection H as -> -> <-. eauto.
Qed.

(** The four ways a test cycle goes: no unit test target, no builder, the
    package does not resolve again, or the test action runs. *)
Lemma cycle_cases (pack : LocalPackage) (passed failed : list LocalPackage)
    (w : World) :
  let run := testCycle pack passed failed w in
  (exists w2,
      cli_ResolveTarget TARGET_TEST_NAME (project_ResetProject w) = (None, w2)
      /\ run =
         (Exit usage_exit_status, w2,
          [EvResetProject; EvResolveTarget TARGET_TEST_NAME None;
           EvUsage None
             (Some (NewNewtError
                      ("Can't find unit test target: " ++ TARGET_TEST_NAME)))]))
  \/ (exists t w2 e w3,
      cli_ResolveTarget TARGET_TEST_NAME (project_ResetProject w) = (Some t, w2)
      /\ builder_NewBuilder t w2 = (inr e, w3)
      /\ run =
         (Exit usage_exit_status, w3,
          [EvResetProject; EvResolveTarget TARGET_TEST_NAME (Some t);
           EvNewBuilder t (inr e); EvUsage None (Some e)]))
  \/ (exists t w2 b w3 e w4,
      cli_ResolveTarget TARGET_TEST_NAME (project_ResetProject w) = (Some t, w2)
      /\ builder_NewBuilder t w2 = (inl b, w3)
      /\ cli_ResolvePackage (FullName pack) w3 = (inr e, w4)
      /\ run =
         (Exit usage_exit_status, w4,
          [EvResetProject; EvResolveTarget TARGET_TEST_NAME (Some t);
           EvNewBuilder t (inl b);
           EvStatus VERBOSITY_DEFAULT ("Testing package %s" ++ LF)
             [FullName pack];
           EvResolvePackage (FullName pack) (inr e);
           EvUsage None
             (Some (NewNewtError ("Failed to resolve package: " ++ Name pack)))]))
  \/ (exists t w2 b w3 np w4 r w5,
      cli_ResolveTarget TARGET_TEST_NAME (project_ResetProject w) = (Some t, w2)
      /\ builder_NewBuilder t w2 = (inl b, w3)
      /\ cli_ResolvePackage (FullName pack) w3 = (inl np, w4)
      /\ Builder_Test b np w4 = (r, w5)
      /\ run =
         after (cycleEvents pack t b np r)
           (match r with
            | None => (Ret (passed ++ [np], failed), w5, [])
            | Some (NewtErr e) =>
                (Ret (passed, failed ++ [np]), w5,
                 [EvStatus VERBOSITY_QUIET (Text e) []])
            | Some (ForeignErr _) => (Panic, w5, [])
            end)).
Proof.
  cbv zeta.
  destruct (cli_ResolveTarget TARGET_TEST_NAME (project_ResetProject w))
    as [[t |] w2] eqn:Ht.
  2: { left. exists w2. split; [reflexivity |]. now apply cycle_no_target. }
  destruct (builder_NewBuilder t w2) as [[b | e] w3] eqn:Hb.
  2: { right; left. exists t, w2, e, w3.
       repeat split; try assumption. eapply cycle_no_builder; eassumption. }
  destruct (cli_ResolvePackage (FullName pack) w3) as [[np | e] w4] eqn:Hp.
  2: { right; right; left. exists t, w2, b, w3, e, w4.
       repeat split; try assumption. eapply cycle_unresolved; eassumption. }
  destruct (Builder_Test b np w4) as [r w5] eqn:Hr.
  right; right; right. exists t, w2, b, w3, np, w4, r, w5.
  repeat split; try assumption.
  eapply cycle_tested; eassumption.
Qed.

(** A cycle that returns ran its test action, and the package it records is
    the one resolved again. *)
Lemma cycle_ret_inv (pack : LocalPackage) (passed failed : list LocalPackage)
    (w : World) pa fa w' tr :
  testCycle pack passed failed w = (Ret (pa, fa), w', tr) ->
  exists t w2 b w3 np w4 r,
    cli_ResolveTarget TARGET_TEST_NAME (project_ResetProject w) = (Some t, w2)
    /\ builder_NewBuilder t w2 = (inl b, w3)
    /\ cli_ResolvePackage (FullName pack) w3 = (inl np, w4)
    /\ Builder_Test b np w4 = (r, w')
    /\ ((r = None /\ pa = passed ++ [np] /\ fa = failed
         /\ tr = cycleEvents pack t b np r)
        \/ (exists e, r = Some (NewtErr e) /\ pa = passed /\ fa = failed ++ [np]
            /\ tr = cycleEvents pack t b np r
                    ++ [EvStatus VERBOSITY_QUIET (Text e) []])).
Proof.
  intros H.
  destruct (cycle_cases pack passed failed w)
    as [(w2 & _ & E) | [(t & w2 & e & w3 & _ & _ & E)
      | [(t & w2 & b & w3 & e & w4 & _ & _ & _ & E)
      | (t & w2 & b & w3 & np & w4 & r & w5 & Ht & Hb & Hp & Hr & E)]]];
    rewrite E in H; try discriminate.
  exists t, w2, b, w3, np, w4, r.
  destruct r as [[e | msg] |]; cbn in H; try discriminate;
    injection H as <- <- <- <-; repeat split; try assumption.
  - right. exists e. repeat split.
  - left. repeat split.
Qed.

(** The loop runs the cycle of its first package and goes on with the rest
    from the world and the lists that cycle left. *)
Lemma testCycles_cons (pack : LocalPackage) (rest passed failed : list LocalPackage)
    (w : World) :
  testCycles (pack :: rest) passed failed w =
  match testCycle pack passed failed w with
  | (Ret (pa, fa), w1, t1) => after t1 (testCycles rest pa fa w1)
  | (Exit st, w1, t1) => (Exit st, w1, t1)
  | (Panic, w1, t1) => (Panic, w1, t1)
  end.
Proof.
  cbn [testCycles]. rewrite run_bind.
  destruct (testCycle pack passed failed w) as [[[[pa fa] | st |] w1] t1];
    reflexivity.
Qed.

Lemma collect_app {X} (f : Event -> list X) (t1 t2 : list Event) :
  collect f (t1 ++ t2) = collect f t1 ++ collect f t2.
Proof. unfold collect. apply flat_map_app. Qed.

(** What a completed loop leaves: one test per selected package, on the
    package resolved again by the full name of the selected one, passed and
    failed packages appended in that order. *)
Lemma testCycles_ret (packs : list LocalPackage) :
  forall passed failed w pa fa w' tr,
    testCycles packs passed failed w = (Ret (pa, fa), w', tr) ->
    pa = passed ++ passedOf (tests tr)
    /\ fa = failed ++ failedOf (tests tr)
    /\ map fst (resolutions tr) = map FullName packs
    /\ map snd (resolutions tr) = map fst (tests tr)
    /\ List.length (tests tr) = List.length packs.
Proof.
  induction packs as [| pack rest IH]; intros passed failed w pa fa w' tr H.
  - cbn in H. injection H as <- <- <- <-. cbn.
    now rewrite !app_nil_r.
  - rewrite testCycles_cons in H.
    destruct (testCycle pack passed failed w) as [[[[pa1 fa1] | st |] w1] t1] eqn:E;
      try discriminate.
    apply after_inv in H. destruct H as (tr2 & H & ->).
    apply IH in H. destruct H as (Hpa & Hfa & Hnames & Hsame & Hlen).
    apply cycle_ret_inv in E.
    destruct E as (t & w2 & b & w3 & np & w4 & r & _ & _ & _ & _ & E).
    unfold tests, resolutions in *. rewrite !collect_app.
    destruct E as [(-> & -> & -> & ->) | (e & -> & -> & -> & ->)];
      cbn; unfold passedOf, failedOf in *; cbn;
      rewrite Hpa, Hfa, Hnames, Hsame, Hlen, <- ?app_assoc; cbn;
      repeat split; reflexivity.
Qed.

End CycleCases.

(** ** The test batch *)

Lemma passed_failed_length {C : Collab} (outs : list (LocalPackage * option error)) :
  List.length (passedOf outs) + List.length (failedOf outs) = List.length outs.
Proof.
  unfold passedOf, failedOf. rewrite !length_map.
  induction outs as [| [p [e |]] outs IH]; cbn; lia.
Qed.

(** The batch over [packs] once its cycles have all completed: one test per
    package, the two lists, and the report that ends the batch. *)
Lemma testBatch_run {C : Collab} (packs pa fa : list LocalPackage)
    (w w1 : World) (tr1 : list Event) :
  testCycles packs [] [] w = (Ret (pa, fa), w1, tr1) ->
  let outs := tests tr1 in
  let K := List.length (failedOf outs) in
  List.length outs = List.length packs
  /\ map fst (resolutions tr1) = map FullName packs
  /\ map snd (resolutions tr1) = map fst outs
  /\ pa = passedOf outs
  /\ fa = failedOf outs
  /\ List.length pa = List.length packs - K
  /\ List.length fa = K
  /\ testBatch packs w =
     (if Nat.eqb K 0 then
        (Ret tt, w1,
         tr1 ++ [EvStatus VERBOSITY_DEFAULT ("%s" ++ LF)
                   [("Passed tests: [" ++ PackageNameList pa ++ "]")%string];
                 EvStatus VERBOSITY_DEFAULT ("All tests passed" ++ LF) []])
      else
        (Exit usage_exit_status, w1,
         tr1 ++ [EvUsage None
                   (Some (NewNewtError
                            ("Test failure(s):" ++ LF
                             ++ ("Passed tests: [" ++ PackageNameList pa ++ "]")
                             ++ LF
                             ++ ("Failed tests: [" ++ PackageNameList fa ++ "]"))))]))
  /\ ((exists st, outcome (testBatch packs w) = Exit st /\ st <> 0%Z) <-> 0 < K).
Proof.
  intros H outs K.
  destruct (testCycles_ret _ _ _ _ _ _ _ _ H) as (Hpa & Hfa & Hnames & Hsame & Hlen).
  cbn [app] in Hpa, Hfa. fold outs in Hpa, Hfa, Hsame, Hlen.
  assert (Hfalen : List.length fa = K) by (now rewrite Hfa).
  assert (Hpalen : List.length pa = List.length packs - K).
  { pose proof (passed_failed_length outs) as L. fold K in L.
    rewrite Hpa, <- Hlen. lia. }
  assert (Hrun : testBatch packs w =
     (if Nat.eqb K 0 then
        (Ret tt, w1,
         tr1 ++ [EvStatus VERBOSITY_DEFAULT ("%s" ++ LF)
                   [("Passed tests: [" ++ PackageNameList pa ++ "]")%string];
                 EvStatus VERBOSITY_DEFAULT ("All tests passed" ++ LF) []])
      else
        (Exit usage_exit_status, w1,
         tr1 ++ [EvUsage None
                   (Some (NewNewtError
                            ("Test failure(s):" ++ LF
                             ++ ("Passed tests: [" ++ PackageNameList pa ++ "]")
                             ++ LF
                             ++ ("Failed tests: [" ++ PackageNameList fa ++ "]"))))]))).
  { unfold testBatch. rewrite (run_bind_ret _ _ _ _ _ _ H). cbn beta iota.
    unfold testReport. rewrite Hfalen.
    destruct K as [| k]; reflexivity. }
  repeat split; try assumption.
  - intros (st & Hst & Hnz). rewrite Hrun in Hst.
    destruct K; [discriminate | lia].
  - intros HK. rewrite Hrun. destruct K; [lia |].
    exists usage_exit_status. split; [reflexivity | exact usage_exit_status_nonzero].
Qed.

(** C1. When the project has initialized, the selection [packs] of the
    test command is not empty and the cycles of its batch have all
    completed, every selected package was tested once, as the package its
    full name resolved to, in the order of the selection; the passed list
    holds the packages whose test returned no error and the failed list
    the K others, both in that order; the command ends through NewtUsage
    with a status that is not zero exactly when K > 0, and the error it
    reports then carries the name list of the passed and of the failed
    packages; with K = 0 it prints the passed list and returns. *)
Theorem testRunCmd_batch_report {C : Collab} (cmd : Command)
    (args : list string) (w w0 : World) (packs : list LocalPackage)
    (ws : World) (tsel : list Event) (pa fa : list LocalPackage)
    (w1 : World) (tr1 : list Event) :
  project_Initialize w = (None, w0) ->
  args <> [] ->
  testSelect cmd args w0 = (Ret packs, ws, tsel) ->
  packs <> [] ->
  testCycles packs [] [] ws = (Ret (pa, fa), w1, tr1) ->
  let outs := tests tr1 in
  let K := List.length (failedOf outs) in
  List.length outs = List.length packs
  /\ map fst (resolutions tr1) = map FullName packs
  /\ map snd (resolutions tr1) = map fst outs
  /\ pa = passedOf outs
  /\ fa = failedOf outs
  /\ List.length pa = List.length packs - K
  /\ List.length fa = K
  /\ testRunCmd cmd args w =
     (if Nat.eqb K 0 then
        (Ret tt, w1,
         EvInitialize None
           :: tsel ++ tr1
              ++ [EvStatus VERBOSITY_DEFAULT ("%s" ++ LF)
                    [("Passed tests: [" ++ PackageNameList pa ++ "]")%string];
                  EvStatus VERBOSITY_DEFAULT ("All tests passed" ++ LF) []])
      else
        (Exit usage_exit_status, w1,
         EvInitialize None
           :: tsel ++ tr1
              ++ [EvUsage None
                    (Some (NewNewtError
                             ("Test failure(s):" ++ LF
                              ++ ("Passed tests: [" ++ PackageNameList pa ++ "]")
                              ++ LF
                              ++ ("Failed tests: [" ++ PackageNameList fa ++ "]"))))]))
  /\ ((exists st, outcome (testRunCmd cmd args w) = Exit st /\ st <> 0%Z)
      <-> 0 < K)
  /\ (outcome (testRunCmd cmd args w) = Ret tt <-> K = 0).
Proof.
  intros Hinit Hargs Hsel Hpacks H. cbv zeta.
  pose proof (testBatch_run packs pa fa ws w1 tr1 H) as Hb. cbv zeta in Hb.
  destruct Hb
    as (Hlen & Hnames & Hsame & Hpa & Hfa & Hpalen & Hfalen & Hbatch & _).
  set (K := List.length (failedOf (tests tr1))) in *.
  assert (Hrun : testRunCmd cmd args w =
     (if Nat.eqb K 0 then
        (Ret tt, w1,
         EvInitialize None
           :: tsel ++ tr1
              ++ [EvStatus VERBOSITY_DEFAULT ("%s" ++ LF)
                    [("Passed tests: [" ++ PackageNameList pa ++ "]")%string];
                  EvStatus VERBOSITY_DEFAULT ("All tests passed" ++ LF) []])
      else
        (Exit usage_exit_status, w1,
         EvInitialize None
           :: tsel ++ tr1
              ++ [EvUsage None
                    (Some (NewNewtError
                             ("Test failure(s):" ++ LF
                              ++ ("Passed tests: [" ++ PackageNameList pa ++ "]")
                              ++ LF
                              ++ ("Failed tests: [" ++ PackageNameList fa ++ "]"))))]))).
  { unfold testRunCmd, Initialize. step Hinit.
    destruct args as [| a args]; [contradiction |].
    rewrite (run_bind_ret _ _ _ _ _ _ Hsel). cbn beta iota.
    destruct packs as [| p packs]; [contradiction |].
    rewrite Hbatch. destruct (Nat.eqb K 0); reflexivity. }
  repeat split; try assumption.
  - intros (st & Hst & Hnz). rewrite Hrun in Hst.
    destruct K; [discriminate | lia].
  - intros HK. rewrite Hrun. destruct K; [lia |].
    exists usage_exit_status. split; [reflexivity | exact usage_exit_status_nonzero].
  - rewrite Hrun. destruct K; [reflexivity | discriminate].
  - intros ->. rewrite Hrun. reflexivity.
Qed.

Lemma testRunCmd_batch_report_witness :
  testRunCmd Toy.cmd_test ["libs/os"; "libs/json"; "hw/hal"] Toy.w0
  = (Exit 1%Z, Toy.reset (Toy.reset (Toy.reset Toy.w0)),
     EvInitialize None
       :: trace (testSelect Toy.cmd_test ["libs/os"; "libs/json"; "hw/hal"] Toy.w0)
          ++ trace (testCycles [Toy.pkg 0 "libs/os" "os";
                                Toy.pkg 0 "libs/json" "json";
                                Toy.pkg 0 "hw/hal" "hal"] [] [] Toy.w0)
          ++ [EvUsage None
                (Some (NewNewtError
                         ("Test failure(s):" ++ LF
                          ++ "Passed tests: [os hal]" ++ LF
                          ++ "Failed tests: [json]")))])
  /\ tests (trace (testCycles [Toy.pkg 0 "libs/os" "os";
                               Toy.pkg 0 "libs/json" "json";
                               Toy.pkg 0 "hw/hal" "hal"] [] [] Toy.w0))
     = [(Toy.pkg 1 "libs/os" "os", None);
        (Toy.pkg 2 "libs/json" "json",
         Some (NewNewtError "Test failure(libs/json)"));
        (Toy.pkg 3 "hw/hal" "hal", None)].
Proof.
  split; [| reflexivity].
  set (args := ["libs/os"; "libs/json"; "hw/hal"]).
  set (packs := [Toy.pkg 0 "libs/os" "os"; Toy.pkg 0 "libs/json" "json";
                 Toy.pkg 0 "hw/hal" "hal"]).
  assert (Hinit : project_Initialize Toy.w0 = (None, Toy.w0)) by reflexivity.
  assert (Hargs : args <> []) by discriminate.
  assert (Hsel : testSelect Toy.cmd_test args Toy.w0
                 = (Ret packs, Toy.w0, trace (testSelect Toy.cmd_test args Toy.w0)))
    by reflexivity.
  assert (Hpacks : packs <> []) by discriminate.
  assert (Hcyc : testCycles packs [] [] Toy.w0
                 = (Ret ([Toy.pkg 1 "libs/os" "os"; Toy.pkg 3 "hw/hal" "hal"],
                         [Toy.pkg 2 "libs/json" "json"]),
                    Toy.reset (Toy.reset (Toy.reset Toy.w0)),
                    trace (testCycles packs [] [] Toy.w0)))
    by (vm_compute; reflexivity).
  destruct (testRunCmd_batch_report (C := Toy.collab) Toy.cmd_test args
              Toy.w0 Toy.w0 packs Toy.w0 _ _ _ _ _ Hinit Hargs Hsel Hpacks Hcyc)
    as (_ & _ & _ & _ & _ & _ & _ & H & _).
  rewrite H. vm_compute. reflexivity.
Defined.

(** ** The steps of a cycle *)







(** ** A failing test action *)

(** C4, as amended. When the test action of a selected package returns an
    error of the structured type util.NewtError, the batch goes on: the text
    of the error is printed at once at the quiet level, the package (as
    resolved again) is appended to the failed list, the passed list is left
    alone, and the loop runs the cycles of the remaining packages from there. *)
Theorem structured_test_failure_continues {C : Collab}
    (pack : LocalPackage) (rest passed failed : list LocalPackage) (w : World)
    (t : Target) (w2 : World) (b : Builder) (w3 : World)
    (np : LocalPackage) (w4 : World) (e : NewtError) (w5 : World) :
  cli_ResolveTarget TARGET_TEST_NAME (project_ResetProject w) = (Some t, w2) ->
  builder_NewBuilder t w2 = (inl b, w3) ->
  cli_ResolvePackage (FullName pack) w3 = (inl np, w4) ->
  Builder_Test b np w4 = (Some (NewtErr e), w5) ->
  testCycles (pack :: rest) passed failed w
  = after (cycleEvents pack t b np (Some (NewtErr e))
           ++ [EvStatus VERBOSITY_QUIET (Text e) []])
      (testCycles rest passed (failed ++ [np]) w5).
Proof.
  intros Ht Hb Hp Hr.
  rewrite testCycles_cons.
  rewrite (cycle_tested pack passed failed w t w2 Ht b w3 Hb np w4 Hp _ _ Hr).
  reflexivity.
Qed.

Lemma structured_test_failure_continues_witness :
  testCycles [Toy.pkg 0 "libs/json" "json"; Toy.pkg 0 "libs/os" "os"] [] [] Toy.w0
  = after (cycleEvents (Toy.pkg 0 "libs/json" "json") (Toy.tgt "unittest" 1)
             (Toy.bld "unittest" 1) (Toy.pkg 1 "libs/json" "json")
             (Some (NewNewtError "Test failure(libs/json)"))
           ++ [EvStatus VERBOSITY_QUIET "Test failure(libs/json)" []])
      (testCycles [Toy.pkg 0 "libs/os" "os"] [] [Toy.pkg 1 "libs/json" "json"]
         (Toy.reset Toy.w0))
  /\ outcome (testCycles [Toy.pkg 0 "libs/json" "json"; Toy.pkg 0 "libs/os" "os"]
                [] [] Toy.w0)
     = Ret ([Toy.pkg 2 "libs/os" "os"], [Toy.pkg 1 "libs/json" "json"]).
Proof.
  split; [| reflexivity].
  apply (structured_test_failure_continues (C := Toy.collab)
           (Toy.pkg 0 "libs/json" "json") [Toy.pkg 0 "libs/os" "os"] [] []
           Toy.w0 (Toy.tgt "unittest" 1) (Toy.reset Toy.w0)
           (Toy.bld "unittest" 1) (Toy.reset Toy.w0)
           (Toy.pkg 1 "libs/json" "json") (Toy.reset Toy.w0)
           {| Text := "Test failure(libs/json)" |} (Toy.reset Toy.w0));
    reflexivity.
Defined.

(** C4 as stated fails: the test of libs/shell returns an error that is no
    util.NewtError; the batch over shell and os stops in a panic, prints no
    text at the quiet level and never runs the cycle of os. *)
Lemma foreign_test_error_aborts_batch :
  let shell := Toy.pkg 0 "libs/shell" "shell" in
  let os := Toy.pkg 0 "libs/os" "os" in
  let run := testCycles [shell; os] [] [] Toy.w0 in
  tests (trace run)
  = [(Toy.pkg 1 "libs/shell" "shell", Some (ForeignErr "exit status 2"))]
  /\ outcome run = Panic
  /\ quietMessages (trace run) = []
  /\ resolutions (trace run) = [("libs/shell", Toy.pkg 1 "libs/shell" "shell")]
  /\ outcome (testBatch [shell; os] Toy.w0) = Panic.
Proof. vm_compute. repeat split; reflexivity. Qed.


(** C9. Once the test action of a cycle has returned an error, the cycle
    asserts that the error is a util.NewtError: for an error of another type
    the assertion fails and the cycle panics right after the test, with
    nothing printed and nothing recorded; the cycle returns exactly for the
    errors of the structured type. *)
Theorem test_error_type_assertion {C : Collab}
    (pack : LocalPackage) (passed failed : list LocalPackage) (w : World)
    (t : Target) (w2 : World) (b : Builder) (w3 : World)
    (np : LocalPackage) (w4 : World) (err : error) (w5 : World) :
  cli_ResolveTarget TARGET_TEST_NAME (project_ResetProject w) = (Some t, w2) ->
  builder_NewBuilder t w2 = (inl b, w3) ->
  cli_ResolvePackage (FullName pack) w3 = (inl np, w4) ->
  Builder_Test b np w4 = (Some err, w5) ->
  let run := testCycle pack passed failed w in
  (forall msg, err = ForeignErr msg ->
               run = (Panic, w5, cycleEvents pack t b np (Some err)))
  /\ (outcome run = Panic <-> assertNewtError err = None)
  /\ ((exists lists, outcome run = Ret lists) <-> exists e, err = NewtErr e).
Proof.
  intros Ht Hb Hp Hr run. subst run.
  rewrite (cycle_tested pack passed failed w t w2 Ht b w3 Hb np w4 Hp _ _ Hr).
  destruct err as [e | m]; cbn.
  - split; [discriminate |]. split.
    + split; discriminate.
    + split; [eauto | intros _; eauto].
  - split.
    + intros msg _. reflexivity.
    + split.
      * split; reflexivity.
      * split; [intros (l & Hl); discriminate | intros (e & He); discriminate].
Qed.


Lemma test_error_type_assertion_witness :
  testCycle (Toy.pkg 0 "libs/shell" "shell") [] [] Toy.w0
  = (Panic, Toy.reset Toy.w0,
     cycleEvents (Toy.pkg 0 "libs/shell" "shell") (Toy.tgt "unittest" 1)
       (Toy.bld "unittest" 1) (Toy.pkg 1 "libs/shell" "shell")
       (Some (ForeignErr "exit status 2"))).
Proof.
  apply (test_error_type_assertion (C := Toy.collab)
           (Toy.pkg 0 "libs/shell" "shell") [] []
           Toy.w0 (Toy.tgt "unittest" 1) (Toy.reset Toy.w0)
           (Toy.bld "unittest" 1) (Toy.reset Toy.w0)
           (Toy.pkg 1 "libs/shell" "shell") (Toy.reset Toy.w0)
           (ForeignErr "exit status 2") (Toy.reset Toy.w0)
           eq_refl eq_refl eq_refl eq_refl) with (msg := "exit status 2").
  reflexivity.
Defined.

(** ** Selecting the packages to test *)

Section Selection.

Context {C : Collab}.

Variable cmd : Command.

(** Classification resolves the explicit names in order; while they resolve
    it only collects the packages and notes the wildcard. *)
Lemma testClassify_pre (pre post : list string) :
  forall testAll packs w ps w2,
    resolveExplicit pre w = Some (ps, w2) ->
    exists tr,
      forallb isPackageResolution tr = true
      /\ testClassify cmd (pre ++ post) testAll packs w
         = after tr (testClassify cmd post (testAll || hasAll pre)
                       (packs ++ ps) w2).
Proof.
  induction pre as [| name pre IH]; intros testAll packs w ps w2 H.
  - cbn in H. injection H as <- <-. exists []. split; [reflexivity |].
    cbn [app hasAll existsb]. now rewrite orb_false_r, app_nil_r, after_nil.
  - cbn [resolveExplicit] in H. cbn [app testClassify hasAll existsb].
    destruct (String.eqb name "all") eqn:Ename.
    + destruct (IH true packs w ps w2 H) as (tr & Htr & E).
      exists tr. split; [assumption |].
      rewrite E. cbn [orb]. now rewrite orb_true_r.
    + destruct (cli_ResolvePackage name w) as [[p | e] w1] eqn:Hr;
        [| discriminate].
      destruct (resolveExplicit pre w1) as [[ps' w2'] |] eqn:Hrest;
        [| discriminate].
      injection H as <- <-.
      destruct (IH testAll (packs ++ [p]) w1 ps' w2' Hrest) as (tr & Htr & E).
      exists (EvResolvePackage name (inl p) :: tr). split.
      * cbn. assumption.
      * unfold ResolvePackage. step Hr. rewrite E, after_after.
        cbn [orb app]. now rewrite <- app_assoc.
Qed.

Lemma testClassify_ok (args : list string) testAll packs w ps w2 :
  resolveExplicit args w = Some (ps, w2) ->
  exists tr,
    forallb isPackageResolution tr = true
    /\ testClassify cmd args testAll packs w
       = (Ret (testAll || hasAll args, packs ++ ps), w2, tr).
Proof.
  intros H.
  destruct (testClassify_pre args [] testAll packs w ps w2 H) as (tr & Htr & E).
  exists tr. split; [assumption |].
  rewrite app_nil_r in E. rewrite E. cbn [testClassify].
  unfold after, outcome, final, trace. cbn. now rewrite app_nil_r.
Qed.

(** A name that does not resolve ends the classification through NewtUsage. *)
Lemma testClassify_none (args : list string) :
  forall testAll packs w,
    resolveExplicit args w = None ->
    exists w' tr, testClassify cmd args testAll packs w
                  = (Exit usage_exit_status, w', tr).
Proof.
  induction args as [| name args IH]; intros testAll packs w H;
    [discriminate |].
  cbn [resolveExplicit] in H. cbn [testClassify].
  destruct (String.eqb name "all"); [now apply IH |].
  unfold ResolvePackage.
  destruct (cli_ResolvePackage name w) as [[p | e] w1] eqn:Hr.
  - destruct (resolveExplicit args w1) as [[ps' w2'] |] eqn:Hrest;
      [discriminate |].
    destruct (IH testAll (packs ++ [p]) w1 Hrest) as (w' & tr & E).
    step Hr. rewrite E. eexists. eexists. reflexivity.
  - step Hr. eexists. eexists. reflexivity.
Qed.

(** A classification that returns has resolved every explicit name. *)
Lemma testClassify_ret_inv (args : list string) testAll packs w ta ps' w' tr :
  testClassify cmd args testAll packs w = (Ret (ta, ps'), w', tr) ->
  exists ps,
    resolveExplicit args w = Some (ps, w')
    /\ ta = (testAll || hasAll args)%bool
    /\ ps' = packs ++ ps
    /\ forallb isPackageResolution tr = true.
Proof.
  intros H. destruct (resolveExplicit args w) as [[ps w2] |] eqn:Hre.
  - destruct (testClassify_ok args testAll packs w ps w2 Hre) as (tr0 & Htr & E).
    rewrite E in H. injection H as <- <- <- <-. exists ps. repeat split.
    assumption.
  - destruct (testClassify_none args testAll packs w Hre) as (w0 & tr0 & E).
    rewrite E in H. discriminate.
Qed.

(** The loops over the package list: they panic on a package that is not
    local and otherwise append the testable packages in the order visited. *)
Lemma testablePackages_run (repoHash : list (PackageInterface LocalPackage)) :
  forall packs w,
    testablePackages repoHash packs w
    = if allLocal repoHash
      then (Ret (packs ++ testableAmong w repoHash), w, [])
      else (Panic, w, []).
Proof.
  induction repoHash as [| [p |] rest IH]; intros packs w.
  - cbn. now rewrite app_nil_r.
  - cbn [testablePackages assertLocalPackage allLocal forallb andb].
    unfold pkgIsTestable, NodeExist. pure_step. rewrite after_nil, IH.
    fold (allLocal rest). destruct (allLocal rest); [| reflexivity].
    cbn [testableAmong flat_map].
    destruct (util_NodeExist (BasePath p ++ "/src/test") w);
      cbn [app]; now rewrite <- ?app_assoc.
  - reflexivity.
Qed.

Lemma testableRepos_run
    (repos : list (string * list (PackageInterface LocalPackage))) :
  forall packs w,
    testableRepos repos packs w
    = if forallb (fun repo => allLocal (snd repo)) repos
      then (Ret (packs ++ flat_map (fun repo => testableAmong w (snd repo)) repos),
            w, [])
      else (Panic, w, []).
Proof.
  induction repos as [| [name repoHash] rest IH]; intros packs w.
  - cbn. now rewrite app_nil_r.
  - cbn [testableRepos forallb flat_map snd]. rewrite run_bind.
    rewrite testablePackages_run.
    destruct (allLocal repoHash); [| reflexivity].
    rewrite after_nil, IH. cbn [andb].
    destruct (forallb (fun repo => allLocal (snd repo)) rest); [| reflexivity].
    now rewrite <- app_assoc.
Qed.

(** With the wildcard among the arguments, a selection that returns is the
    list of testable packages of the world the resolutions left. *)
Lemma testSelect_all_ret (args : list string) w packs w' tr :
  hasAll args = true ->
  testSelect cmd args w = (Ret packs, w', tr) ->
  packs = testableOf w'
  /\ (exists ps, resolveExplicit args w = Some (ps, w'))
  /\ existsb isCycle tr = false.
Proof.
  intros Hall H. unfold testSelect in H. rewrite run_bind in H.
  destruct (testClassify cmd args false [] w) as [[[[ta ps'] | st |] w1] t1] eqn:E;
    try discriminate.
  apply testClassify_ret_inv in E. destruct E as (ps & Hre & -> & -> & Ht1).
  rewrite Hall in H. cbn [orb] in H.
  apply after_inv in H. destruct H as (tr2 & H & ->).
  unfold PackageList in H. erewrite run_bind_ret in H by reflexivity.
  rewrite testableRepos_run in H.
  destruct (forallb (fun repo => allLocal (snd repo)) (project_PackageList w1));
    [| discriminate].
  cbn in H. injection H as <- <- <-.
  split; [reflexivity |]. split; [eauto |].
  rewrite existsb_app. cbn. rewrite orb_false_r.
  clear - Ht1. induction t1 as [| ev t1 IH]; [reflexivity |].
  cbn in Ht1 |- *. apply andb_prop in Ht1. destruct Ht1 as [Hev Ht1].
  rewrite (IH Ht1). destruct ev; try discriminate. reflexivity.
Qed.

End Selection.

Lemma resolutions_not_selection {C : Collab} (tr : list Event) :
  forallb isPackageResolution tr = true ->
  existsb isSelectionOrCycle tr = false.
Proof.
  induction tr as [| ev tr IH]; [reflexivity |].
  cbn. intros H. apply andb_prop in H. destruct H as [Hev H].
  rewrite (IH H). destruct ev; try discriminate. reflexivity.
Qed.

Lemma hasAll_In (args : list string) : hasAll args = true <-> In "all" args.
Proof.
  unfold hasAll. rewrite existsb_exists. split.
  - intros (x & Hin & Hx). apply String.eqb_eq in Hx. now subst.
  - intros H. exists "all". split; [assumption | apply String.eqb_refl].
Qed.




(** C7. When the selection of a test command comes out empty, the command
    ends through NewtUsage with a status that is not zero and the message
    "No testable packages found"; no cycle is run: the project is not reset,
    no target is resolved, no builder constructed and no test invoked. *)
Theorem empty_selection_is_fatal {C : Collab} (cmd : Command)
    (args : list string) (w w1 w2 : World) (tr : list Event) :
  project_Initialize w = (None, w1) ->
  args <> [] ->
  testSelect cmd args w1 = (Ret [], w2, tr) ->
  testRunCmd cmd args w
  = (Exit usage_exit_status, w2,
     EvInitialize None
       :: tr ++ [EvUsage None (Some (NewNewtError "No testable packages found"))])
  /\ usage_exit_status <> 0%Z
  /\ existsb isCycle (trace (testRunCmd cmd args w)) = false
  /\ tests (trace (testRunCmd cmd args w)) = [].
Proof.
  intros Hinit Hargs Hsel.
  assert (E : testRunCmd cmd args w
              = (Exit usage_exit_status, w2,
                 EvInitialize None
                   :: tr ++ [EvUsage None
                               (Some (NewNewtError "No testable packages found"))])).
  { unfold testRunCmd, Initialize. step Hinit.
    destruct args as [| a args]; [contradiction |].
    rewrite (run_bind_ret _ _ _ _ _ _ Hsel). reflexivity. }
  assert (Hno : existsb isSelectionOrCycle tr = false \/ hasAll args = true).
  { destruct (hasAll args) eqn:Hall; [now right | left].
    unfold testSelect in Hsel. rewrite run_bind in Hsel.
    destruct (testClassify cmd args false [] w1)
      as [[[[ta ps'] | st |] w3] t1] eqn:Ec; try discriminate.
    apply testClassify_ret_inv in Ec. destruct Ec as (ps & _ & -> & -> & Ht1).
    rewrite Hall in Hsel. cbn in Hsel. injection Hsel as _ _ <-.
    rewrite app_nil_r. now apply resolutions_not_selection. }
  assert (Hcyc : existsb isCycle tr = false).
  { destruct Hno as [Hno | Hall].
    - clear - Hno. induction tr as [| ev tr' IH]; [reflexivity |].
      cbn in Hno |- *. apply orb_false_elim in Hno. destruct Hno as [Hev Hno].
      rewrite (IH Hno). destruct ev; try discriminate; reflexivity.
    - now destruct (testSelect_all_ret cmd args w1 [] w2 tr Hall Hsel)
        as (_ & _ & Hc). }
  split; [exact E |]. split; [exact usage_exit_status_nonzero |].
  rewrite E. unfold trace. cbn [snd]. split.
  - cbn [existsb isCycle]. rewrite existsb_app, Hcyc. reflexivity.
  - unfold tests, collect. cbn [flat_map app]. rewrite flat_map_app. cbn.
    rewrite app_nil_r. clear - Hcyc.
    induction tr as [| ev tr' IH]; [reflexivity |].
    cbn in Hcyc |- *. apply orb_false_elim in Hcyc. destruct Hcyc as [Hev Hc].
    rewrite (IH Hc). destruct ev; try discriminate; reflexivity.
Qed.

Lemma empty_selection_is_fatal_witness :
  testRunCmd Toy.cmd_test ["all"] Toy.w_no_tests
  = (Exit 1%Z, Toy.w_no_tests,
     [EvInitialize None; EvPackageList;
      EvUsage None (Some (NewNewtError "No testable packages found"))]).
Proof.
  apply (empty_selection_is_fatal (C := Toy.collab) Toy.cmd_test ["all"]
           Toy.w_no_tests Toy.w_no_tests Toy.w_no_tests [EvPackageList]).
  - reflexivity.
  - discriminate.
  - reflexivity.
Defined.

(** C10. The explicit names of a test command are resolved one by one while
    the arguments are classified, before the wildcard has any effect: when
    the names before [name] have resolved and [name] does not, the command
    ends through NewtUsage with the resolver's error, whether or not "all"
    stands before or after it; the package list is not read and no cycle
    is run. *)
Theorem explicit_name_failure_aborts {C : Collab} (cmd : Command)
    (pre : list string) (name : string) (post : list string)
    (w w1 : World) (ps : list LocalPackage) (w2 : World) (e : error) (w3 : World) :
  project_Initialize w = (None, w1) ->
  resolveExplicit pre w1 = Some (ps, w2) ->
  name <> "all" ->
  cli_ResolvePackage name w2 = (inr e, w3) ->
  let run := testRunCmd cmd (pre ++ name :: post) w in
  outcome run = Exit usage_exit_status
  /\ usage_exit_status <> 0%Z
  /\ final run = w3
  /\ (exists tr,
      forallb isPackageResolution tr = true
      /\ trace run
         = EvInitialize None
             :: tr ++ [EvResolvePackage name (inr e); EvUsage (Some cmd) (Some e)])
  /\ existsb isSelectionOrCycle (trace run) = false.
Proof.
  intros Hinit Hpre Hname Hr run.
  destruct (testClassify_pre cmd pre (name :: post) false [] w1 ps w2 Hpre)
    as (tr & Htr & E).
  assert (Erun : run
                 = (Exit usage_exit_status, w3,
                    EvInitialize None
                      :: tr ++ [EvResolvePackage name (inr e);
                                EvUsage (Some cmd) (Some e)])).
  { subst run. unfold testRunCmd, Initialize. step Hinit.
    remember (pre ++ name :: post) as args eqn:Hargs.
    destruct args as [| a args']; [destruct pre; discriminate |].
    unfold testSelect. rewrite !run_bind, E.
    cbn [testClassify]. apply String.eqb_neq in Hname. rewrite Hname.
    unfold ResolvePackage. step Hr. reflexivity. }
  rewrite Erun. unfold outcome, final, trace. cbn [fst snd].
  split; [reflexivity |]. split; [exact usage_exit_status_nonzero |].
  split; [reflexivity |]. split; [eauto |].
  cbn [existsb isSelectionOrCycle isCycle orb].
  rewrite existsb_app, (resolutions_not_selection tr Htr). reflexivity.
Qed.

Lemma explicit_name_failure_aborts_witness :
  testRunCmd Toy.cmd_test ["libs/os"; "all"; "nosuch"; "libs/json"] Toy.w0
  = (Exit 1%Z, Toy.w0,
     [EvInitialize None;
      EvResolvePackage "libs/os" (inl (Toy.pkg 0 "libs/os" "os"));
      EvResolvePackage "nosuch" (inr (NewNewtError "unknown package: nosuch"));
      EvUsage (Some Toy.cmd_test)
        (Some (NewNewtError "unknown package: nosuch"))])
  /\ existsb isSelectionOrCycle
       (trace (testRunCmd Toy.cmd_test
                 ["libs/os"; "all"; "nosuch"; "libs/json"] Toy.w0)) = false.
Proof.
  split; [reflexivity |].
  refine (proj2 (proj2 (proj2 (proj2
    (explicit_name_failure_aborts (C := Toy.collab) Toy.cmd_test
       ["libs/os"; "all"] "nosuch" ["libs/json"] Toy.w0 Toy.w0
       [Toy.pkg 0 "libs/os" "os"] Toy.w0
       (NewNewtError "unknown package: nosuch") Toy.w0 _ _ _ _))))).
  - reflexivity.
  - reflexivity.
  - discriminate.
  - reflexivity.
Defined.

(** ** The clean command *)

Section Clean.

Context {C : Collab}.

Variable cmd : Command.

Lemma trace_after {A} (tr : list Event) (run : result A * World * list Event) :
  trace (after tr run) = tr ++ trace run.
Proof. reflexivity. Qed.

(** Whatever its outcome, the classification only resolves targets. *)
Lemma cleanClassify_trace (args : list string) :
  forall cleanAll targets w,
    forallb isResolveOrUsage (trace (cleanClassify cmd args cleanAll targets w))
    = true.
Proof.
  induction args as [| arg args IH]; intros cleanAll targets w; [reflexivity |].
  cbn [cleanClassify]. destruct (String.eqb arg TARGET_KEYWORD_ALL); [apply IH |].
  unfold ResolveTarget. rewrite run_bind, run_call.
  destruct (cli_ResolveTarget arg w) as [[t |] w1]; cbn [fst snd].
  - rewrite trace_after. cbn. apply IH.
  - reflexivity.
Qed.

Lemma resolve_or_usage_only (tr : list Event) :
  forallb isResolveOrUsage tr = true ->
  cleans tr = [] /\ builders tr = [] /\ removals tr = [].
Proof.
  induction tr as [| ev tr IH]; [now repeat split |].
  cbn. intros H. apply andb_prop in H. destruct H as [Hev H].
  destruct (IH H) as (Hc & Hb & Hr).
  unfold cleans, builders, removals, collect in *. cbn [flat_map].
  rewrite Hc, Hb, Hr. destruct ev; try discriminate; now repeat split.
Qed.

(** While the explicit names resolve, the classification returns their
    targets in the order of the arguments and notes the wildcard. *)
Lemma cleanClassify_ok (args : list string) :
  forall cleanAll targets w ts w2,
    resolveExplicitTargets args w = Some (ts, w2) ->
    exists tr,
      cleanClassify cmd args cleanAll targets w
      = (Ret (cleanAll || hasAll args, targets ++ ts), w2, tr)
      /\ map fst (resolvedTargets tr) = explicitNames args
      /\ map snd (resolvedTargets tr) = ts.
Proof.
  unfold TARGET_KEYWORD_ALL.
  induction args as [| arg args IH]; intros cleanAll targets w ts w2 H.
  - cbn in H. injection H as <- <-. exists []. cbn.
    now rewrite orb_false_r, app_nil_r.
  - cbn [resolveExplicitTargets] in H.
    cbn [cleanClassify hasAll existsb explicitNames filter].
    unfold TARGET_KEYWORD_ALL in *.
    destruct (String.eqb arg "all") eqn:Earg.
    + destruct (IH true targets w ts w2 H) as (tr & E & Hn & Ht).
      exists tr. rewrite E. cbn [orb negb]. rewrite orb_true_r. auto.
    + destruct (cli_ResolveTarget arg w) as [[t |] w1] eqn:Hr; [| discriminate].
      destruct (resolveExplicitTargets args w1) as [[ts' w2'] |] eqn:Hrest;
        [| discriminate].
      injection H as <- <-.
      destruct (IH cleanAll (targets ++ [t]) w1 ts' w2' Hrest)
        as (tr & E & Hn & Ht).
      exists (EvResolveTarget arg (Some t) :: tr).
      unfold ResolveTarget. step Hr. rewrite E. cbn [orb negb].
      rewrite <- app_assoc. split; [reflexivity |].
      unfold resolvedTargets, collect in *. cbn. now rewrite Hn, Ht.
Qed.

Lemma cleanClassify_none (args : list string) :
  forall cleanAll targets w,
    resolveExplicitTargets args w = None ->
    exists w' tr, cleanClassify cmd args cleanAll targets w
                  = (Exit usage_exit_status, w', tr).
Proof.
  induction args as [| arg args IH]; intros cleanAll targets w H;
    [discriminate |].
  cbn [resolveExplicitTargets] in H. cbn [cleanClassify].
  destruct (String.eqb arg TARGET_KEYWORD_ALL); [now apply IH |].
  unfold ResolveTarget.
  destruct (cli_ResolveTarget arg w) as [[t |] w1] eqn:Hr.
  - destruct (resolveExplicitTargets args w1) as [[ts' w2'] |] eqn:Hrest;
      [discriminate |].
    destruct (IH cleanAll (targets ++ [t]) w1 Hrest) as (w' & tr & E).
    step Hr. rewrite E. eexists. eexists. reflexivity.
  - step Hr. eexists. eexists. reflexivity.
Qed.

(** A loop over the targets that returns has built one builder per target
    and cleaned with each, in order. *)
Lemma cleanTargets_ret (targets : list Target) :
  forall w w' tr,
    cleanTargets cmd targets w = (Ret tt, w', tr) ->
    map fst (builders tr) = targets
    /\ cleans tr = map snd (builders tr)
    /\ removals tr = []
    /\ resolvedTargets tr = [].
Proof.
  induction targets as [| t rest IH]; intros w w' tr H.
  - cbn in H. injection H as <- <-. now repeat split.
  - cbn [cleanTargets] in H. unfold NewBuilder, Clean in H.
    destruct (builder_NewBuilder t w) as [[b | e] w1] eqn:Hb.
    2: { rewrite (run_bind_call _ _ _ _ _ _ Hb) in H. discriminate. }
    rewrite (run_bind_call _ _ _ _ _ _ Hb) in H. cbn beta iota in H.
    destruct (Builder_Clean b w1) as [[e |] w2] eqn:Hc.
    { rewrite (run_bind_call _ _ _ _ _ _ Hc) in H. discriminate. }
    rewrite (run_bind_call _ _ _ _ _ _ Hc) in H. cbn beta iota in H.
    rewrite after_after in H. apply after_inv in H.
    destruct H as (tr2 & H & ->). apply IH in H.
    destruct H as (Hbs & Hcs & Hrs & Hts).
    unfold builders, cleans, removals, resolvedTargets, collect in *.
    cbn. rewrite Hbs, Hcs, Hrs, Hts. now repeat split.
Qed.

End Clean.

Lemma explicitNames_no_wildcard (args : list string) :
  hasAll args = false -> explicitNames args = args.
Proof.
  unfold hasAll, explicitNames.
  induction args as [| arg args IH]; [reflexivity |].
  cbn. intros H. apply orb_false_elim in H. destruct H as [Harg H].
  rewrite Harg. cbn. now rewrite (IH H).
Qed.

(** The clean command once the project is initialized and there is an
    argument: the classification, then the removal of the output root or
    the loop over the targets. *)
Lemma cleanRunCmd_run {C : Collab} (cmd : Command) (args : list string)
    (w w1 : World) :
  project_Initialize w = (None, w1) ->
  args <> [] ->
  cleanRunCmd cmd args w
  = after [EvInitialize None]
      (match cleanClassify cmd args false [] w1 with
       | (Ret (true, _), w2, t1) =>
           after (t1 ++ [EvStatus VERBOSITY_VERBOSE ("Cleaning directory %s" ++ LF)
                           [builder_BinRoot w2];
                         EvRemoveAll (builder_BinRoot w2)
                           (fst (os_RemoveAll (builder_BinRoot w2) w2))])
             (match os_RemoveAll (builder_BinRoot w2) w2 with
              | (Some e, w3) =>
                  (Exit usage_exit_status, w3, [EvUsage (Some cmd) (Some e)])
              | (None, w3) => (Ret tt, w3, [])
              end)
       | (Ret (false, targets), w2, t1) => after t1 (cleanTargets cmd targets w2)
       | (Exit st, w2, t1) => (Exit st, w2, t1)
       | (Panic, w2, t1) => (Panic, w2, t1)
       end).
Proof.
  intros Hinit Hargs. unfold cleanRunCmd, Initialize. step Hinit.
  destruct args as [| a args]; [contradiction |].
  rewrite run_bind.
  destruct (cleanClassify cmd (a :: args) false [] w1)
    as [[[[[|] targets] | st |] w2] t1]; try reflexivity.
  unfold BinRoot, StatusMessage, RemoveAll.
  pure_step. pure_step.
  destruct (os_RemoveAll (builder_BinRoot w2) w2) as [[e |] w3] eqn:Hr;
    step Hr; rewrite !after_after; cbn [fst];
    rewrite ?app_nil_r, <- ?app_assoc; reflexivity.
Qed.

(** C5, as amended. With the wildcard among the arguments of clean, Clean
    is invoked on no builder and no builder is constructed, whatever else
    the arguments hold; when the project initializes and every other
    argument resolves to a target, os.RemoveAll is invoked once, on
    BinRoot, and the command returns unless that removal fails. Without the
    wildcard, a command that returns has resolved every argument, built one
    builder per target and invoked Clean once with each, in the order of
    the arguments, and has removed nothing with os.RemoveAll. *)
Theorem clean_wildcard_and_targets {C : Collab} (cmd : Command)
    (args : list string) (w : World) :
  let run := cleanRunCmd cmd args w in
  (In TARGET_KEYWORD_ALL args ->
   cleans (trace run) = [] /\ builders (trace run) = [])
  /\ (In TARGET_KEYWORD_ALL args ->
      forall w1 ts w2 r w3,
        project_Initialize w = (None, w1) ->
        resolveExplicitTargets args w1 = Some (ts, w2) ->
        os_RemoveAll (builder_BinRoot w2) w2 = (r, w3) ->
        removals (trace run) = [builder_BinRoot w2]
        /\ final run = w3
        /\ outcome run = match r with
                         | None => Ret tt
                         | Some _ => Exit usage_exit_status
                         end)
  /\ (~ In TARGET_KEYWORD_ALL args ->
      outcome run = Ret tt ->
      map fst (resolvedTargets (trace run)) = args
      /\ map fst (builders (trace run)) = map snd (resolvedTargets (trace run))
      /\ cleans (trace run) = map snd (builders (trace run))
      /\ removals (trace run) = []).
Proof.
  cbv zeta. unfold TARGET_KEYWORD_ALL at 1 2 3.
  split; [| split].
  - intros Hall.
    assert (Hne : args <> []) by (intros ->; contradiction).
    destruct (project_Initialize w) as [[e |] w1] eqn:Hinit.
    { unfold cleanRunCmd, Initialize. step Hinit. split; reflexivity. }
    rewrite (cleanRunCmd_run cmd args w w1 Hinit Hne).
    pose proof (cleanClassify_trace cmd args false [] w1) as Htr.
    destruct (cleanClassify cmd args false [] w1)
      as [[[[[|] targets] | st |] w2] t1] eqn:E;
      unfold trace in Htr; cbn [snd] in Htr;
      apply resolve_or_usage_only in Htr; destruct Htr as (Hc & Hb & _).
    + rewrite after_after, trace_after.
      unfold cleans, builders in *. rewrite !collect_app, Hc, Hb.
      destruct (os_RemoveAll (builder_BinRoot w2) w2) as [[e |] w3];
        split; reflexivity.
    + exfalso. apply hasAll_In in Hall.
      destruct (resolveExplicitTargets args w1) as [[ts w2'] |] eqn:Hre.
      * destruct (cleanClassify_ok cmd args false [] w1 ts w2' Hre)
          as (tr & E' & _).
        rewrite E' in E. rewrite Hall in E. discriminate.
      * destruct (cleanClassify_none cmd args false [] w1 Hre) as (w' & tr & E').
        rewrite E' in E. discriminate.
    + rewrite trace_after. unfold cleans, builders in *.
      rewrite !collect_app. unfold trace. cbn [snd]. rewrite Hc, Hb.
      split; reflexivity.
    + rewrite trace_after. unfold cleans, builders in *.
      rewrite !collect_app. unfold trace. cbn [snd]. rewrite Hc, Hb.
      split; reflexivity.
  - intros Hall w1 ts w2 r w3 Hinit Hre Hrm.
    assert (Hne : args <> []) by (intros ->; contradiction).
    apply hasAll_In in Hall.
    rewrite (cleanRunCmd_run cmd args w w1 Hinit Hne).
    destruct (cleanClassify_ok cmd args false [] w1 ts w2 Hre) as (tr & E & _).
    pose proof (cleanClassify_trace cmd args false [] w1) as Htr.
    rewrite E in Htr |- *. unfold trace in Htr. cbn [snd] in Htr.
    apply resolve_or_usage_only in Htr. destruct Htr as (_ & _ & Hr).
    rewrite Hall. cbn [orb]. rewrite Hrm. cbn [fst].
    rewrite after_after, trace_after.
    unfold removals in *. rewrite !collect_app, Hr.
    destruct r as [e |]; repeat split; reflexivity.
  - intros Hall Hret.
    assert (Hnone : hasAll args = false).
    { destruct (hasAll args) eqn:E; [| reflexivity].
      apply hasAll_In in E. contradiction. }
    destruct (project_Initialize w) as [[e |] w1] eqn:Hinit.
    { unfold cleanRunCmd, Initialize in Hret. rewrite (run_bind_call _ _ _ _ _ _ Hinit) in Hret.
      discriminate. }
    destruct args as [| a args].
    { unfold cleanRunCmd, Initialize in Hret. rewrite (run_bind_call _ _ _ _ _ _ Hinit) in Hret.
      discriminate. }
    assert (Hne : a :: args <> []) by discriminate.
    rewrite (cleanRunCmd_run cmd (a :: args) w w1 Hinit Hne) in Hret |- *.
    pose proof (cleanClassify_trace cmd (a :: args) false [] w1) as Htr.
    destruct (resolveExplicitTargets (a :: args) w1) as [[ts w2] |] eqn:Hre.
    2: { destruct (cleanClassify_none cmd (a :: args) false [] w1 Hre)
           as (w' & tr & E).
         rewrite E in Hret. discriminate. }
    destruct (cleanClassify_ok cmd (a :: args) false [] w1 ts w2 Hre)
      as (t1 & E & Hnames & Htargets).
    rewrite E in Htr, Hret |- *. rewrite Hnone in Hret |- *.
    cbn [orb app] in Hret |- *.
    unfold trace in Htr. cbn [snd] in Htr.
    apply resolve_or_usage_only in Htr. destruct Htr as (Hc & Hb & Hr).
    rewrite after_after in Hret |- *.
    destruct (cleanTargets cmd ts w2) as [[[[] | st |] w3] t2] eqn:Et;
      try discriminate.
    apply cleanTargets_ret in Et. destruct Et as (Hbs & Hcs & Hrs & Hts).
    rewrite trace_after. unfold trace. cbn [snd].
    rewrite (explicitNames_no_wildcard _ Hnone) in Hnames.
    unfold resolvedTargets, builders, cleans, removals in *.
    rewrite !collect_app, Hc, Hb, Hr, Hts, Hrs.
    cbn [collect flat_map app]. rewrite ?app_nil_r.
    split; [exact Hnames |]. split; [now rewrite Hbs, Htargets |].
    split; [exact Hcs | reflexivity].
Qed.

Lemma clean_wildcard_and_targets_witness :
  removals (trace (cleanRunCmd Toy.cmd_clean ["blinky"; "all"] Toy.w0)) = ["bin"]
  /\ cleans (trace (cleanRunCmd Toy.cmd_clean ["blinky"; "all"] Toy.w0)) = []
  /\ outcome (cleanRunCmd Toy.cmd_clean ["blinky"; "all"] Toy.w0) = Ret tt
  /\ cleans (trace (cleanRunCmd Toy.cmd_clean ["blinky"; "broken"] Toy.w0))
     = [Toy.bld "blinky" 0; Toy.bld "broken" 0].
Proof.
  destruct (clean_wildcard_and_targets (C := Toy.collab) Toy.cmd_clean
              ["blinky"; "all"] Toy.w0) as (H1 & H2 & _).
  assert (Hall : In TARGET_KEYWORD_ALL ["blinky"; "all"])
    by (right; left; reflexivity).
  destruct (H1 Hall) as (Hc & _).
  destruct (H2 Hall Toy.w0 [Toy.tgt "blinky" 0] Toy.w0 None
              (snd (Toy.remove_all "bin" Toy.w0)) eq_refl eq_refl eq_refl)
    as (Hr & _ & Ho).
  destruct (clean_wildcard_and_targets (C := Toy.collab) Toy.cmd_clean
              ["blinky"; "broken"] Toy.w0) as (_ & _ & H3).
  assert (Hnone : ~ In TARGET_KEYWORD_ALL ["blinky"; "broken"]).
  { intros [H | [H | []]]; discriminate. }
  destruct (H3 Hnone eq_refl) as (_ & _ & Hcl & _).
  split; [exact Hr |]. split; [exact Hc |]. split; [exact Ho |].
  rewrite Hcl. reflexivity.
Defined.

(** C5 as stated fails.  In "clean all nosuch" the wildcard is among the
    arguments, but the other argument is still resolved, is no target, and
    the command ends through NewtUsage before anything is removed.  In
    "clean nobsp blinky" there is no wildcard and both arguments resolve,
    but no builder can be constructed for the first: the command ends there
    and Clean is invoked for neither target. *)
Lemma clean_all_unresolved_name_removes_nothing :
  let run := cleanRunCmd Toy.cmd_clean ["all"; "nosuch"] Toy.w0 in
  let run' := cleanRunCmd Toy.cmd_clean ["nobsp"; "blinky"] Toy.w0 in
  In TARGET_KEYWORD_ALL ["all"; "nosuch"]
  /\ run = (Exit 1%Z, Toy.w0,
            [EvInitialize None; EvResolveTarget "nosuch" None;
             EvUsage (Some Toy.cmd_clean)
               (Some (NewNewtError "invalid target name: nosuch"))])
  /\ removals (trace run) = []
  /\ util_NodeExist "bin/blinky.elf" (final run) = true
  /\ ~ In TARGET_KEYWORD_ALL ["nobsp"; "blinky"]
  /\ resolvedTargets (trace run')
     = [("nobsp", Toy.tgt "nobsp" 0); ("blinky", Toy.tgt "blinky" 0)]
  /\ cleans (trace run') = []
  /\ outcome run' = Exit 1%Z.
Proof.
  cbv zeta. split; [left; reflexivity |].
  repeat split; try reflexivity.
  intros [H | [H | []]]; discriminate.
Qed.

(** ** The UDP transport: Start, Stop and Tx *)

Lemma udp_calls_from (cs : list Udp.Call) :
  forall ux,
    let run := Udp.doCalls cs ux in
    Udp.alternates (negb (Udp.started ux)) (Udp.succeeded cs (fst run)) = true
    /\ Udp.started (snd run)
       = xorb (Udp.started ux) (Nat.odd (List.length (Udp.succeeded cs (fst run)))).
Proof.
  induction cs as [| c cs IH]; intros [st].
  - cbn. now destruct st.
  - destruct c as [| | bytes]; destruct st; cbn;
      match goal with
      | |- context [Udp.doCalls cs ?u] =>
          specialize (IH u); cbv zeta in IH;
          destruct (Udp.doCalls cs u) as [rs ux2]
      end;
      cbn in IH |- *; destruct IH as [Ha Hs];
      (split; [exact Ha |]); rewrite Hs; try reflexivity;
      rewrite Nat.odd_succ, <- Nat.negb_odd;
      destruct (Nat.odd (List.length (Udp.succeeded cs rs))); reflexivity.
Qed.

Lemma udp_alternates_no_tx (ok : list Udp.Call) :
  forall next, Udp.alternates next ok = true -> existsb Udp.isTx ok = false.
Proof.
  induction ok as [| c ok IH]; intros next H; [reflexivity |].
  destruct c; cbn in H |- *; try discriminate;
    apply andb_prop in H; destruct H as [_ H]; eapply IH; exact H.
Qed.

(** X11. On a new transport, whatever the sequence of Start, Stop and Tx
    calls, the calls that succeed are starts and stops in turn, the first a
    start; no Tx succeeds; the transport is started in the end exactly when
    the number of calls that succeeded is odd. *)
Theorem udp_successes_alternate (cs : list Udp.Call) :
  let run := Udp.doCalls cs Udp.NewUdpXport in
  let ok := Udp.succeeded cs (fst run) in
  Udp.alternates true ok = true
  /\ existsb Udp.isTx ok = false
  /\ Udp.started (snd run) = Nat.odd (List.length ok).
Proof.
  cbv zeta. destruct (udp_calls_from cs Udp.NewUdpXport) as [Ha Hs].
  cbn [Udp.NewUdpXport Udp.started negb xorb] in Ha, Hs.
  split; [exact Ha |]. split; [| exact Hs].
  exact (udp_alternates_no_tx _ _ Ha).
Qed.

(** X12. What each call of the transport returns: Start fails exactly on a
    started transport, with "UDP xport started twice", and otherwise starts
    it; Stop fails exactly on a transport that is not started, with "UDP
    xport stopped twice" (also when it was never started), and otherwise
    stops it; Tx always fails, with "unsupported".  A call that returns an
    error leaves the transport as it was. *)
Theorem udp_failed_call_keeps_transport (c : Udp.Call) (ux : Udp.UdpXport) :
  (fst (Udp.doCall c ux) <> None -> snd (Udp.doCall c ux) = ux)
  /\ (forall bytes,
      Udp.doCall (Udp.CallTx bytes) ux
      = (Some (Udp.ErrorString "unsupported"), ux))
  /\ (Udp.started ux = true ->
      Udp.doCall Udp.CallStart ux
      = (Some (Udp.XportError "UDP xport started twice"), ux)
      /\ Udp.doCall Udp.CallStop ux = (None, Udp.NewUdpXport))
  /\ (Udp.started ux = false ->
      Udp.doCall Udp.CallStop ux
      = (Some (Udp.XportError "UDP xport stopped twice"), ux)
      /\ fst (Udp.doCall Udp.CallStart ux) = None
      /\ Udp.started (snd (Udp.doCall Udp.CallStart ux)) = true)
  /\ (fst (Udp.doCall c ux) = None ->
      (c = Udp.CallStart \/ c = Udp.CallStop)
      /\ Udp.started (snd (Udp.doCall c ux)) = negb (Udp.started ux)).
Proof.
  destruct ux as [st].
  split; [| split; [| split; [| split]]].
  - destruct c as [| | bytes]; destruct st; cbn; intros H;
      try contradiction; reflexivity.
  - reflexivity.
  - cbn. intros ->. split; reflexivity.
  - cbn. intros ->. repeat split.
  - destruct c as [| | bytes]; destruct st; cbn; intros H;
      try discriminate; split; auto.
Qed.

Lemma udp_failed_call_keeps_transport_witness :
  Udp.doCall Udp.CallStop Udp.NewUdpXport
  = (Some (Udp.XportError "UDP xport stopped twice"), Udp.NewUdpXport)
  /\ Udp.doCall (Udp.CallTx []) (snd (Udp.doCall Udp.CallStart Udp.NewUdpXport))
     = (Some (Udp.ErrorString "unsupported"),
        snd (Udp.doCall Udp.CallStart Udp.NewUdpXport))
  /\ Udp.doCall Udp.CallStart (snd (Udp.doCall Udp.CallStart Udp.NewUdpXport))
     = (Some (Udp.XportError "UDP xport started twice"),
        snd (Udp.doCall Udp.CallStart Udp.NewUdpXport)).
Proof.
  destruct (udp_failed_call_keeps_transport Udp.CallStop Udp.NewUdpXport)
    as (_ & _ & _ & Hstopped & _).
  destruct (udp_failed_call_keeps_transport Udp.CallStart
              (snd (Udp.doCall Udp.CallStart Udp.NewUdpXport)))
    as (_ & Htx & Hstarted & _).
  split; [exact (proj1 (Hstopped eq_refl)) |].
  split; [exact (Htx []) | exact (proj1 (Hstarted eq_refl))].
Defined.

(** X13. Tx has no part in the life of the transport: with the Tx calls
    taken out of a sequence, the Start and Stop calls return what they
    returned and the transport ends in the same state. *)
Theorem udp_tx_is_inert (cs : list Udp.Call) (ux : Udp.UdpXport) :
  let cs' := filter (fun c => negb (Udp.isTx c)) cs in
  snd (Udp.doCalls cs ux) = snd (Udp.doCalls cs' ux)
  /\ Udp.succeeded cs (fst (Udp.doCalls cs ux))
     = Udp.succeeded cs' (fst (Udp.doCalls cs' ux)).
Proof.
  cbv zeta. revert ux.
  induction cs as [| c cs IH]; intros ux; [split; reflexivity |].
  destruct c as [| | bytes]; cbn [filter Udp.isTx negb Udp.doCalls Udp.doCall].
  - destruct (Udp.Start ux) as [r ux1]. specialize (IH ux1).
    destruct (Udp.doCalls cs ux1) as [rs ux2].
    destruct (Udp.doCalls (filter (fun c => negb (Udp.isTx c)) cs) ux1)
      as [rs' ux2'].
    cbn [fst snd] in *. destruct IH as [-> IH].
    split; [reflexivity |]. destruct r; cbn [Udp.succeeded]; now rewrite IH.
  - destruct (Udp.Stop ux) as [r ux1]. specialize (IH ux1).
    destruct (Udp.doCalls cs ux1) as [rs ux2].
    destruct (Udp.doCalls (filter (fun c => negb (Udp.isTx c)) cs) ux1)
      as [rs' ux2'].
    cbn [fst snd] in *. destruct IH as [-> IH].
    split; [reflexivity |]. destruct r; cbn [Udp.succeeded]; now rewrite IH.
  - cbn [Udp.Tx]. specialize (IH ux).
    destruct (Udp.doCalls cs ux) as [rs ux2].
    cbn [fst snd Udp.succeeded] in *. exact IH.
Qed.

(** ** The load, debug and size commands *)

Section ActionRuns.

Context {C : Collab} {AC : ActionCollab C}.

Lemma ma_bind_base_call {A B} (f : World -> A * World) (ev : A -> Event)
    (k : A -> MA B) (w : World) (a : A) (w1 : World) :
  f w = (a, w1) ->
  (x <- base (call f ev) ;; k x) w
  = match k a w1 with
    | (r, w2, t2) => (r, w2, inl (ev a) :: t2)
    end.
Proof.
  intros H. cbn. unfold mabind, base, call. rewrite H.
  destruct (k a w1) as [[r w2] t2]. reflexivity.
Qed.

Lemma ma_bind_action {B} (f : World -> option error * World)
    (ev : option error -> ActionEvent) (k : option error -> MA B)
    (w : World) (r : option error) (w1 : World) :
  f w = (r, w1) ->
  (x <- action f ev ;; k x) w
  = match k r w1 with
    | (r', w2, t2) => (r', w2, inr (ev r) :: t2)
    end.
Proof.
  intros H. cbn. unfold mabind, action. rewrite H.
  destruct (k r w1) as [[r' w2] t2]. reflexivity.
Qed.

End ActionRuns.

(** [dispatch] proves that one of the three commands dispatches to its
    action. *)
Ltac dispatch :=
  intros cmd args w;
  unfold loadRunCmd, debugRunCmd, sizeRunCmd, Load, Debug, Size,
    Initialize, ResolveTarget, NewBuilder;
  destruct (project_Initialize w) as [[e |] w1] eqn:Hinit;
  rewrite (ma_bind_base_call _ _ _ _ _ _ Hinit); [reflexivity |];
  destruct args as [| arg0 rest]; [reflexivity |];
  destruct (cli_ResolveTarget arg0 w1) as [[t |] w2] eqn:Ht;
  rewrite (ma_bind_base_call _ _ _ _ _ _ Ht); [| reflexivity];
  destruct (builder_NewBuilder t w2) as [[b | e] w3] eqn:Hb;
  rewrite (ma_bind_base_call _ _ _ _ _ _ Hb); [| reflexivity];
  match goal with
  | |- context [action ?f _] =>
      destruct (f w3) as [[e |] w4] eqn:Ha;
      rewrite (ma_bind_action _ _ _ _ _ _ Ha); reflexivity
  end.

(** X9. load, debug and size are one command with three actions: a
    failing initialization, no argument ("Must specify target"), a first
    argument that is no target ("Invalid target name: " and the argument),
    a builder that cannot be constructed and a failing action each end the
    process through NewtUsage, with the usage of the command and a status
    that is not zero; otherwise the action of the builder is invoked once,
    nothing is printed and the command returns.  Arguments after the first
    are not looked at. *)
Theorem load_debug_size_dispatch {C : Collab} {AC : ActionCollab C} :
  dispatchesTo loadRunCmd Builder_Load EvLoad
  /\ dispatchesTo debugRunCmd Builder_Debug EvDebug
  /\ dispatchesTo sizeRunCmd Builder_Size EvSize
  /\ usage_exit_status <> 0%Z.
Proof.
  split; [| split; [| split]].
  - dispatch.
  - dispatch.
  - dispatch.
  - exact usage_exit_status_nonzero.
Qed.

Lemma load_debug_size_dispatch_witness :
  loadRunCmd (AC := ToyActions.actions) ToyActions.cmd_load
    ["blinky"; "ignored"] Toy.w0
  = (Ret tt, Toy.w0,
     [inl (EvInitialize None);
      inl (EvResolveTarget "blinky" (Some (Toy.tgt "blinky" 0)));
      inl (EvNewBuilder (Toy.tgt "blinky" 0) (inl (Toy.bld "blinky" 0)));
      inr (EvLoad (Toy.bld "blinky" 0) None)])
  /\ sizeRunCmd (AC := ToyActions.actions) ToyActions.cmd_size ["broken"] Toy.w0
     = (Exit 1%Z, Toy.w0,
        [inl (EvInitialize None);
         inl (EvResolveTarget "broken" (Some (Toy.tgt "broken" 0)));
         inl (EvNewBuilder (Toy.tgt "broken" 0) (inl (Toy.bld "broken" 0)));
         inr (EvSize (Toy.bld "broken" 0) (Some (NewNewtError "no map file")));
         inl (EvUsage (Some ToyActions.cmd_size)
                (Some (NewNewtError "no map file")))]).
Proof.
  destruct (load_debug_size_dispatch (C := Toy.collab) (AC := ToyActions.actions))
    as (Hload & _ & Hsize & _).
  split.
  - exact (Hload ToyActions.cmd_load ["blinky"; "ignored"] Toy.w0).
  - exact (Hsize ToyActions.cmd_size ["broken"] Toy.w0).
Defined.

(** ** Selection by explicit names *)

Lemma testClassify_names {C : Collab} (cmd : Command) (args : list string) :
  forall testAll packs w ps w2,
    resolveExplicit args w = Some (ps, w2) ->
    exists tr,
      testClassify cmd args testAll packs w
      = (Ret (testAll || hasAll args, packs ++ ps), w2, tr)
      /\ map fst (resolutions tr) = explicitNames args
      /\ map snd (resolutions tr) = ps
      /\ forallb isPackageResolution tr = true.
Proof.
  induction args as [| name args IH]; intros testAll packs w ps w2 H.
  - cbn in H. injection H as <- <-. exists []. cbn.
    now rewrite orb_false_r, app_nil_r.
  - cbn [resolveExplicit] in H.
    cbn [testClassify hasAll existsb explicitNames filter].
    destruct (String.eqb name "all") eqn:Ename.
    + destruct (IH true packs w ps w2 H) as (tr & E & Hn & Hp & Hr).
      exists tr. rewrite E. cbn [orb negb]. rewrite orb_true_r. auto.
    + destruct (cli_ResolvePackage name w) as [[p | e] w1] eqn:Hres;
        [| discriminate].
      destruct (resolveExplicit args w1) as [[ps' w2'] |] eqn:Hrest;
        [| discriminate].
      injection H as <- <-.
      destruct (IH testAll (packs ++ [p]) w1 ps' w2' Hrest)
        as (tr & E & Hn & Hp & Hr).
      exists (EvResolvePackage name (inl p) :: tr).
      unfold ResolvePackage. step Hres. rewrite E. cbn [orb negb].
      rewrite <- app_assoc. split; [reflexivity |].
      unfold resolutions, collect in *. cbn. now rewrite Hn, Hp, Hr.
Qed.

(** A selection by explicit names that returns. *)
Lemma explicit_selection {C : Collab} (cmd : Command)
    (args : list string) (w : World) (packs : list LocalPackage)
    (w' : World) (tr : list Event) :
  ~ In "all" args ->
  testSelect cmd args w = (Ret packs, w', tr) ->
  resolveExplicit args w = Some (packs, w')
  /\ map fst (resolutions tr) = args
  /\ map snd (resolutions tr) = packs
  /\ List.length packs = List.length args
  /\ ~ In EvPackageList tr
  /\ (args <> [] -> packs <> []).
Proof.
  intros Hall H.
  assert (Hnone : hasAll args = false).
  { destruct (hasAll args) eqn:E; [| reflexivity].
    apply hasAll_In in E. contradiction. }
  unfold testSelect in H. rewrite run_bind in H.
  destruct (resolveExplicit args w) as [[ps w2] |] eqn:Hre.
  2: { destruct (testClassify_none cmd args false [] w Hre) as (w0 & t0 & E).
       rewrite E in H. discriminate. }
  destruct (testClassify_names cmd args false [] w ps w2 Hre)
    as (t1 & E & Hn & Hp & Hr).
  rewrite E, Hnone in H. cbn in H.
  apply after_inv in H. destruct H as (t2 & H & ->).
  injection H as <- <- <-. rewrite app_nil_r.
  rewrite (explicitNames_no_wildcard _ Hnone) in Hn.
  assert (Hlen : List.length ps = List.length args).
  { rewrite <- Hp, <- Hn at 1. now rewrite !length_map. }
  repeat split; try assumption.
  - intros Hin. rewrite forallb_forall in Hr. apply Hr in Hin. discriminate.
  - intros Hne ->. destruct args; [contradiction | discriminate].
Qed.

Lemma explicit_selection_returns {C : Collab} (cmd : Command)
    (args : list string) (w : World) (packs : list LocalPackage) (w' : World) :
  hasAll args = false ->
  resolveExplicit args w = Some (packs, w') ->
  exists tr, testSelect cmd args w = (Ret packs, w', tr).
Proof.
  intros Hnone Hre.
  destruct (testClassify_names cmd args false [] w packs w' Hre)
    as (tr & E & _).
  exists tr. unfold testSelect. rewrite (run_bind_ret _ _ _ _ _ _ E).
  rewrite Hnone. cbn. unfold after, outcome, final, trace. cbn.
  now rewrite app_nil_r.
Qed.

Lemma resolveExplicit_withNodeExist {C : Collab} (f : string -> World -> bool)
    (args : list string) :
  forall w : @World C,
    resolveExplicit (C := withNodeExist C f) args w
    = resolveExplicit (C := C) args w.
Proof.
  induction args as [| name args IH]; intros w; [reflexivity |].
  cbn [resolveExplicit]. destruct (String.eqb name "all"); [apply IH |].
  change (@cli_ResolvePackage (withNodeExist C f) name w)
    with (@cli_ResolvePackage C name w).
  destruct (cli_ResolvePackage name w) as [[p | e] w1]; [| reflexivity].
  rewrite (IH w1). reflexivity.
Qed.

(** X1. Without "all" among the arguments, a selection that returns holds
    one package per argument, in the order of the arguments and with
    repeated names repeated: the package each name resolved to.  The
    package list of the project is not read; with at least one argument the
    selection is not empty; and the selection is the same whatever
    util.NodeExist answers, so a named package is selected with or without
    a src/test below its base path. *)
Theorem explicit_names_select_in_order {C : Collab} (cmd : Command)
    (args : list string) (w : World) (packs : list LocalPackage)
    (w' : World) (tr : list Event) :
  ~ In "all" args ->
  testSelect cmd args w = (Ret packs, w', tr) ->
  resolveExplicit args w = Some (packs, w')
  /\ map fst (resolutions tr) = args
  /\ map snd (resolutions tr) = packs
  /\ List.length packs = List.length args
  /\ ~ In EvPackageList tr
  /\ (args <> [] -> packs <> [])
  /\ (forall f : string -> World -> bool,
      outcome (testSelect (C := withNodeExist C f) cmd args w) = Ret packs
      /\ final (testSelect (C := withNodeExist C f) cmd args w) = w').
Proof.
  intros Hall H.
  destruct (explicit_selection cmd args w packs w' tr Hall H)
    as (Hre & Hn & Hp & Hlen & Hlist & Hne).
  refine (conj Hre (conj Hn (conj Hp (conj Hlen (conj Hlist (conj Hne _)))))).
  intros f.
  assert (Hnone : hasAll args = false).
  { destruct (hasAll args) eqn:E; [| reflexivity].
    apply hasAll_In in E. contradiction. }
  rewrite <- (resolveExplicit_withNodeExist f) in Hre.
  destruct (explicit_selection_returns (C := withNodeExist C f) cmd args w
              packs w' Hnone Hre) as (tr' & E).
  rewrite E. split; reflexivity.
Qed.

Lemma explicit_names_select_in_order_witness :
  testSelect Toy.cmd_test ["hw/hal"; "libs/os"; "hw/hal"] Toy.w0
  = (Ret [Toy.pkg 0 "hw/hal" "hal"; Toy.pkg 0 "libs/os" "os";
          Toy.pkg 0 "hw/hal" "hal"],
     Toy.w0,
     [EvResolvePackage "hw/hal" (inl (Toy.pkg 0 "hw/hal" "hal"));
      EvResolvePackage "libs/os" (inl (Toy.pkg 0 "libs/os" "os"));
      EvResolvePackage "hw/hal" (inl (Toy.pkg 0 "hw/hal" "hal"))])
  /\ resolveExplicit ["hw/hal"; "libs/os"; "hw/hal"] Toy.w0
     = Some ([Toy.pkg 0 "hw/hal" "hal"; Toy.pkg 0 "libs/os" "os";
              Toy.pkg 0 "hw/hal" "hal"], Toy.w0)
  /\ util_NodeExist (BasePath (Toy.pkg 0 "hw/hal" "hal") ++ "/src/test") Toy.w0
     = false
  /\ outcome (testSelect (C := withNodeExist Toy.collab (fun _ _ => true))
                Toy.cmd_test ["hw/hal"; "libs/os"; "hw/hal"] Toy.w0)
     = Ret [Toy.pkg 0 "hw/hal" "hal"; Toy.pkg 0 "libs/os" "os";
            Toy.pkg 0 "hw/hal" "hal"].
Proof.
  assert (E : testSelect Toy.cmd_test ["hw/hal"; "libs/os"; "hw/hal"] Toy.w0
              = (Ret [Toy.pkg 0 "hw/hal" "hal"; Toy.pkg 0 "libs/os" "os";
                      Toy.pkg 0 "hw/hal" "hal"],
                 Toy.w0,
                 [EvResolvePackage "hw/hal" (inl (Toy.pkg 0 "hw/hal" "hal"));
                  EvResolvePackage "libs/os" (inl (Toy.pkg 0 "libs/os" "os"));
                  EvResolvePackage "hw/hal" (inl (Toy.pkg 0 "hw/hal" "hal"))]))
    by reflexivity.
  assert (Hnone : ~ In "all" ["hw/hal"; "libs/os"; "hw/hal"]).
  { intros [H | [H | [H | []]]]; discriminate. }
  destruct (explicit_names_select_in_order (C := Toy.collab) Toy.cmd_test
              ["hw/hal"; "libs/os"; "hw/hal"] Toy.w0 _ Toy.w0 _ Hnone E)
    as (Hre & _ & _ & _ & _ & _ & Hf).
  split; [exact E |]. split; [exact Hre |]. split; [reflexivity |].
  exact (proj1 (Hf (fun _ _ => true))).
Defined.

(** X8. With "all" among the arguments and every explicit name resolved,
    the selection reads the package list once; it returns the testable
    packages when every package of every repository is a local package and
    panics otherwise, whether or not the package of another type would have
    had tests. *)
Theorem wildcard_selection_or_panic {C : Collab} (cmd : Command)
    (args : list string) (w : World) (ps : list LocalPackage) (w' : World) :
  In "all" args ->
  resolveExplicit args w = Some (ps, w') ->
  exists tr,
    forallb isPackageResolution tr = true
    /\ testSelect cmd args w
       = (if forallb (fun repo => allLocal (snd repo)) (project_PackageList w')
          then Ret (testableOf w') else Panic,
          w', tr ++ [EvPackageList]).
Proof.
  intros Hall Hre. apply hasAll_In in Hall.
  destruct (testClassify_ok cmd args false [] w ps w' Hre) as (tr & Htr & E).
  exists tr. split; [assumption |].
  unfold testSelect. rewrite (run_bind_ret _ _ _ _ _ _ E). cbn beta iota.
  rewrite Hall. cbn [orb]. unfold PackageList. pure_step.
  rewrite testableRepos_run.
  destruct (forallb (fun repo => allLocal (snd repo)) (project_PackageList w'));
    reflexivity.
Qed.

Lemma wildcard_selection_or_panic_witness :
  exists tr,
    testSelect (C := ToyForeign.collab) Toy.cmd_test ["libs/os"; "all"]
      ToyForeign.w0
    = (Panic, ToyForeign.w0, tr ++ [EvPackageList]).
Proof.
  destruct (wildcard_selection_or_panic (C := ToyForeign.collab) Toy.cmd_test
              ["libs/os"; "all"] ToyForeign.w0
              [ToyForeign.pkg 0 "libs/os" "os"] ToyForeign.w0)
    as (tr & Htr & E).
  - right. left. reflexivity.
  - reflexivity.
  - exists tr. exact E.
Defined.

(** ** The shape of the trace of the test command *)

Section TestTrace.

Context {C : Collab}.

Lemma forallb_existsb_disjoint (p q : Event -> bool) (tr : list Event) :
  (forall ev, p ev = true -> q ev = false) ->
  forallb p tr = true -> existsb q tr = false.
Proof.
  intros Hpq. induction tr as [| ev tr IH]; [reflexivity |].
  cbn. intros H. apply andb_prop in H. destruct H as [Hev H].
  now rewrite (Hpq ev Hev), (IH H).
Qed.

Lemma testClassify_events (cmd : Command) (args : list string) :
  forall testAll packs w,
    forallb isSelectEvent (trace (testClassify cmd args testAll packs w)) = true.
Proof.
  induction args as [| name args IH]; intros testAll packs w; [reflexivity |].
  cbn [testClassify]. destruct (String.eqb name "all"); [apply IH |].
  unfold ResolvePackage. rewrite run_bind, run_call.
  destruct (cli_ResolvePackage name w) as [[p | e] w1]; cbn [fst snd].
  - unfold after, trace. cbn [snd app forallb isSelectEvent andb]. apply IH.
  - reflexivity.
Qed.

Lemma testSelect_events (cmd : Command) (args : list string) (w : World) :
  forallb isSelectEvent (trace (testSelect cmd args w)) = true.
Proof.
  unfold testSelect. rewrite run_bind.
  pose proof (testClassify_events cmd args false [] w) as H.
  destruct (testClassify cmd args false [] w) as [[[[ta ps] | st |] w1] t1];
    unfold trace in H |- *; cbn [snd] in H |- *; try assumption.
  destruct ta.
  - unfold PackageList. pure_step. rewrite testableRepos_run.
    destruct (forallb (fun repo => allLocal (snd repo)) (project_PackageList w1));
      unfold after, trace; cbn [snd]; rewrite !forallb_app, H; reflexivity.
  - unfold after, trace. cbn [snd]. rewrite forallb_app, H. reflexivity.
Qed.

(** The trace of the test command: the initialization, the events of the
    selection, the events of a loop over some packages, the report. *)
Lemma testRunCmd_trace (cmd : Command) (args : list string) (w : World) :
  exists r tsel packs w2 tend,
    trace (testRunCmd cmd args w)
    = EvInitialize r :: tsel ++ trace (testCycles packs [] [] w2) ++ tend
    /\ forallb isSelectEvent tsel = true
    /\ forallb isReportEvent tend = true.
Proof.
  unfold testRunCmd, Initialize.
  destruct (project_Initialize w) as [[e |] w1] eqn:Hinit; step Hinit.
  { exists (Some e), [], [], w1, [EvUsage (Some cmd) (Some e)].
    repeat split. }
  destruct args as [| a args].
  { exists None, [], [], w1, [EvUsage (Some cmd) None]. repeat split. }
  rewrite run_bind.
  pose proof (testSelect_events cmd (a :: args) w1) as Hsel.
  destruct (testSelect cmd (a :: args) w1) as [[[packs | st |] w2] tsel];
    unfold trace in Hsel; cbn [snd] in Hsel.
  - destruct packs as [| p packs].
    + exists None, tsel, [], w2,
        [EvUsage None (Some (NewNewtError "No testable packages found"))].
      repeat split. assumption.
    + unfold testBatch. rewrite run_bind.
      destruct (testCycles (p :: packs) [] [] w2)
        as [[[[pa fa] | st |] w3] tcyc] eqn:Ec.
      * unfold testReport.
        destruct (Nat.ltb 0 (List.length fa)).
        -- eexists None, tsel, (p :: packs), w2, _. rewrite Ec.
           split; [| split; [assumption |]].
           ++ unfold after, trace. cbn [snd app]. reflexivity.
           ++ reflexivity.
        -- eexists None, tsel, (p :: packs), w2, _. rewrite Ec.
           split; [| split; [assumption |]].
           ++ unfold after, trace. cbn [snd app]. reflexivity.
           ++ reflexivity.
      * exists None, tsel, (p :: packs), w2, []. rewrite Ec.
        unfold after, trace. cbn [snd app]. rewrite app_nil_r.
        repeat split. assumption.
      * exists None, tsel, (p :: packs), w2, []. rewrite Ec.
        unfold after, trace. cbn [snd app]. rewrite app_nil_r.
        repeat split. assumption.
  - exists None, tsel, [], w2, []. cbn. rewrite app_nil_r.
    repeat split. assumption.
  - exists None, tsel, [], w2, []. cbn. rewrite app_nil_r.
    repeat split. assumption.
Qed.

End TestTrace.

Section TestInvariants.

Context {C : Collab}.

Lemma select_events_safe (tr : list Event) :
  forallb isSelectEvent tr = true ->
  forall f rest,
    (forall f', generationSafe f' rest) -> generationSafe f (tr ++ rest).
Proof.
  induction tr as [| ev tr IH]; intros H f rest Hrest; [apply Hrest |].
  cbn in H. apply andb_prop in H. destruct H as [Hev H].
  destruct ev; try discriminate; cbn [app generationSafe]; now apply IH.
Qed.

Lemma report_events_safe (tr : list Event) :
  forallb isReportEvent tr = true -> forall f, generationSafe f tr.
Proof.
  induction tr as [| ev tr IH]; intros H f; [exact I |].
  cbn in H. apply andb_prop in H. destruct H as [Hev H].
  destruct ev; try discriminate; cbn [generationSafe]; now apply IH.
Qed.

Lemma testCycles_safe (packs : list LocalPackage) :
  forall passed failed w f rest,
    (forall f', generationSafe f' rest) ->
    generationSafe f (trace (testCycles packs passed failed w) ++ rest).
Proof.
  induction packs as [| pack packs IH]; intros passed failed w f rest Hrest;
    [apply Hrest |].
  rewrite testCycles_cons.
  destruct (cycle_cases pack passed failed w)
    as [(w2 & _ & E) | [(t & w2 & e & w3 & _ & _ & E)
      | [(t & w2 & b & w3 & e & w4 & _ & _ & _ & E)
      | (t & w2 & b & w3 & np & w4 & r & w5 & _ & _ & _ & _ & E)]]];
    rewrite E.
  - cbn. apply Hrest.
  - cbn. split; [reflexivity | apply Hrest].
  - cbn. split; [reflexivity | apply Hrest].
  - destruct r as [[e | msg] |];
      unfold after, outcome, final, trace, cycleEvents; cbn [fst snd app];
      cbn [generationSafe freshTarget freshBuilder freshPackage];
      (split; [reflexivity |]); (split; [reflexivity |]);
      (split; [reflexivity |]).
    + cbn [app generationSafe]. apply IH, Hrest.
    + apply Hrest.
    + apply IH, Hrest.
Qed.

Lemma testCycles_never_builds (packs : list LocalPackage) :
  forall passed failed w,
    existsb isBuildOrClean (trace (testCycles packs passed failed w)) = false.
Proof.
  induction packs as [| pack packs IH]; intros passed failed w; [reflexivity |].
  rewrite testCycles_cons.
  destruct (cycle_cases pack passed failed w)
    as [(w2 & _ & E) | [(t & w2 & e & w3 & _ & _ & E)
      | [(t & w2 & b & w3 & e & w4 & _ & _ & _ & E)
      | (t & w2 & b & w3 & np & w4 & r & w5 & _ & _ & _ & _ & E)]]];
    rewrite E; try reflexivity.
  destruct r as [[e | msg] |];
    unfold after, outcome, final, trace, cycleEvents; cbn [fst snd app];
    cbn [existsb isBuildOrClean orb]; try reflexivity; apply IH.
Qed.

End TestInvariants.

(** X2. In every run of the test command, whatever its arguments and its
    outcome, each builder is constructed from the target resolved since the
    last reset of the project, and each test action runs with the builder
    constructed and on the package resolved since the last reset; no
    builder runs a second test. *)
Theorem test_keeps_to_generations {C : Collab} (cmd : Command)
    (args : list string) (w : World) :
  generationSafe nothingFresh (trace (testRunCmd cmd args w)).
Proof.
  destruct (testRunCmd_trace cmd args w)
    as (r & tsel & packs & w2 & tend & -> & Hsel & Hend).
  cbn [generationSafe].
  apply select_events_safe; [assumption |].
  intros f. apply testCycles_safe.
  intros f'. now apply report_events_safe.
Qed.



(** ** More on the clean command *)

Section CleanLoop.

Context {C : Collab}.

Variable cmd : Command.

(** The loop over the targets, whatever its outcome: Clean is invoked with
    every builder constructed, the builders are constructed for the targets
    in order, and the loop stops at the first failure. *)
Lemma cleanTargets_any (targets : list Target) :
  forall w,
    let run := cleanTargets cmd targets w in
    cleans (trace run) = map snd (builders (trace run))
    /\ map fst (builders (trace run))
       = firstn (List.length (cleans (trace run))) targets
    /\ (outcome run = Ret tt \/ outcome run = Exit usage_exit_status)
    /\ (outcome run = Ret tt ->
        List.length (cleans (trace run)) = List.length targets)
    /\ forallb isCleanLoopEvent (trace run) = true.
Proof.
  induction targets as [| t rest IH]; intros w; cbv zeta.
  - cbn. repeat split; auto.
  - cbn [cleanTargets]. unfold NewBuilder, Clean.
    destruct (builder_NewBuilder t w) as [[b | e] w1] eqn:Hb; step Hb.
    2: { cbn. repeat split; auto. discriminate. }
    destruct (Builder_Clean b w1) as [[e |] w2] eqn:Hc; step Hc.
    { cbn. repeat split; auto. discriminate. }
    rewrite after_after. specialize (IH w2). cbv zeta in IH.
    destruct (cleanTargets cmd rest w2) as [[r w3] tr].
    unfold after, outcome, final, trace in *. cbn [fst snd app] in *.
    destruct IH as (Hc1 & Hb1 & Ho & Hlen & Hev).
    unfold cleans, builders, collect in *. cbn [flat_map app].
    split; [cbn [map snd]; now rewrite Hc1 |].
    split; [cbn [map fst List.length firstn]; now rewrite Hb1 |].
    split; [assumption |].
    split; [intros Hr; cbn [List.length]; now rewrite (Hlen Hr) |].
    cbn. exact Hev.
Qed.

(** A classification that fails has found an argument that is no target
    and reports that argument. *)
Lemma cleanClassify_none_usage (args : list string) :
  forall cleanAll targets w,
    resolveExplicitTargets args w = None ->
    exists w' tr name,
      In name args
      /\ cleanClassify cmd args cleanAll targets w
         = (Exit usage_exit_status, w',
            tr ++ [EvResolveTarget name None;
                   EvUsage (Some cmd)
                     (Some (NewNewtError ("invalid target name: " ++ name)))]).
Proof.
  induction args as [| arg args IH]; intros cleanAll targets w H;
    [discriminate |].
  cbn [resolveExplicitTargets] in H. cbn [cleanClassify].
  destruct (String.eqb arg TARGET_KEYWORD_ALL).
  { destruct (IH true targets w H) as (w' & tr & name & Hin & E).
    exists w', tr, name. split; [now right | exact E]. }
  unfold ResolveTarget.
  destruct (cli_ResolveTarget arg w) as [[t |] w1] eqn:Hr.
  - destruct (resolveExplicitTargets args w1) as [[ts' w2'] |] eqn:Hrest;
      [discriminate |].
    destruct (IH cleanAll (targets ++ [t]) w1 Hrest)
      as (w' & tr & name & Hin & E).
    step Hr. rewrite E.
    exists w', (EvResolveTarget arg (Some t) :: tr), name.
    split; [now right | reflexivity].
  - step Hr. exists w1, [], arg. split; [now left | reflexivity].
Qed.

End CleanLoop.

(** X4. clean resolves all its arguments before it acts: when the project
    initializes and some argument other than "all" is no target, the
    command ends through NewtUsage with "invalid target name: " and that
    argument, and nothing has been touched: no builder constructed, no
    Clean invoked, nothing removed, with or without "all" among the
    arguments and whatever the other arguments resolve to. *)
Theorem clean_bad_name_touches_nothing {C : Collab} (cmd : Command)
    (args : list string) (w w1 : World) :
  project_Initialize w = (None, w1) ->
  resolveExplicitTargets args w1 = None ->
  let run := cleanRunCmd cmd args w in
  outcome run = Exit usage_exit_status
  /\ builders (trace run) = []
  /\ cleans (trace run) = []
  /\ removals (trace run) = []
  /\ exists name tr,
      In name args
      /\ trace run
         = tr ++ [EvResolveTarget name None;
                  EvUsage (Some cmd)
                    (Some (NewNewtError ("invalid target name: " ++ name)))].
Proof.
  intros Hinit Hre. cbv zeta.
  assert (Hne : args <> []) by (intros ->; discriminate).
  rewrite (cleanRunCmd_run cmd args w w1 Hinit Hne).
  pose proof (cleanClassify_trace cmd args false [] w1) as Htr.
  destruct (cleanClassify_none_usage cmd args false [] w1 Hre)
    as (w' & tr & name & Hin & E).
  rewrite E in Htr |- *. unfold trace in Htr. cbn [snd] in Htr.
  apply resolve_or_usage_only in Htr. destruct Htr as (Hc & Hb & Hr).
  unfold after, outcome, final, trace. cbn [fst snd app].
  unfold cleans, builders, removals, collect in *. cbn [flat_map app].
  rewrite Hc, Hb, Hr. repeat split.
  exists name, (EvInitialize None :: tr). split; [assumption | reflexivity].
Qed.

Lemma clean_bad_name_touches_nothing_witness :
  outcome (cleanRunCmd Toy.cmd_clean ["blinky"; "nosuch"; "broken"] Toy.w0)
  = Exit 1%Z
  /\ cleans (trace (cleanRunCmd Toy.cmd_clean ["blinky"; "nosuch"; "broken"]
                     Toy.w0)) = [].
Proof.
  destruct (clean_bad_name_touches_nothing (C := Toy.collab) Toy.cmd_clean
              ["blinky"; "nosuch"; "broken"] Toy.w0 Toy.w0 eq_refl eq_refl)
    as (H1 & _ & H2 & _).
  split; [exact H1 | exact H2].
Defined.

(** The builders and the cleans of a run of clean without the wildcard. *)
Lemma clean_loop_prefix {C : Collab} (cmd : Command)
    (args : list string) (w w1 : World) (ts : list Target) (w2 : World) :
  ~ In TARGET_KEYWORD_ALL args ->
  project_Initialize w = (None, w1) ->
  resolveExplicitTargets args w1 = Some (ts, w2) ->
  let run := cleanRunCmd cmd args w in
  cleans (trace run) = map snd (builders (trace run))
  /\ map fst (builders (trace run))
     = firstn (List.length (cleans (trace run))) ts
  /\ removals (trace run) = []
  /\ (outcome run = Ret tt -> List.length (cleans (trace run)) = List.length ts)
  /\ (List.length (cleans (trace run)) < List.length ts ->
      outcome run = Exit usage_exit_status).
Proof.
  intros Hall Hinit Hre. cbv zeta.
  assert (Hnone : hasAll args = false).
  { destruct (hasAll args) eqn:E; [| reflexivity].
    apply hasAll_In in E. contradiction. }
  destruct args as [| a args].
  { cbn in Hre. injection Hre as <- <-.
    unfold cleanRunCmd, Initialize. step Hinit. cbn.
    repeat split; try reflexivity; try discriminate. }
  assert (Hne : a :: args <> []) by discriminate.
  rewrite (cleanRunCmd_run cmd (a :: args) w w1 Hinit Hne).
  pose proof (cleanClassify_trace cmd (a :: args) false [] w1) as Htr.
  destruct (cleanClassify_ok cmd (a :: args) false [] w1 ts w2 Hre)
    as (t1 & E & _ & _).
  rewrite E in Htr |- *. rewrite Hnone. cbn [orb app].
  unfold trace in Htr. cbn [snd] in Htr.
  apply resolve_or_usage_only in Htr. destruct Htr as (Hc & Hb & Hr).
  rewrite after_after.
  destruct (cleanTargets_any cmd ts w2) as (Hc2 & Hb2 & Ho & Hlen & Hev).
  assert (Hrm : removals (trace (cleanTargets cmd ts w2)) = []).
  { clear - Hev. induction (trace (cleanTargets cmd ts w2)) as [| ev tr IH];
      [reflexivity |].
    cbn in Hev. apply andb_prop in Hev. destruct Hev as [H1 H2].
    unfold removals, collect in *. cbn [flat_map]. rewrite (IH H2).
    destruct ev; try discriminate; reflexivity. }
  destruct (cleanTargets cmd ts w2) as [[r w3] tr].
  unfold after, outcome, final, trace in *. cbn [fst snd] in *.
  unfold cleans, builders, removals in *. rewrite !collect_app.
  rewrite Hc, Hb, Hr, Hrm. cbn [collect flat_map app].
  repeat split; try assumption.
  intros Hlt. destruct Ho as [Ho | Ho]; [| assumption].
  apply Hlen in Ho. lia.
Qed.

(** The loop over the targets cleans its first part and, when that
    returns, goes on with the rest from where it left. *)
Lemma cleanTargets_app {C : Collab} (cmd : Command) (l rest : list Target) :
  forall w w1 t1,
    cleanTargets cmd l w = (Ret tt, w1, t1) ->
    cleanTargets cmd (l ++ rest) w = after t1 (cleanTargets cmd rest w1).
Proof.
  induction l as [| t l IH]; intros w w1 t1 H.
  - cbn in H. injection H as <- <-. cbn [app]. now rewrite after_nil.
  - cbn [app cleanTargets] in H |- *. unfold NewBuilder, Clean in *.
    destruct (builder_NewBuilder t w) as [[b | e] w2] eqn:Hb.
    2: { rewrite (run_bind_call _ _ _ _ _ _ Hb) in H. discriminate. }
    rewrite (run_bind_call _ _ _ _ _ _ Hb) in H.
    rewrite (run_bind_call _ _ _ _ _ _ Hb). cbn beta iota in H |- *.
    destruct (Builder_Clean b w2) as [[e |] w3] eqn:Hc.
    { rewrite (run_bind_call _ _ _ _ _ _ Hc) in H. discriminate. }
    rewrite (run_bind_call _ _ _ _ _ _ Hc) in H.
    rewrite (run_bind_call _ _ _ _ _ _ Hc). cbn beta iota in H |- *.
    rewrite after_after in H. rewrite after_after. apply after_inv in H.
    destruct H as (t2 & H & ->).
    rewrite (IH _ _ _ H), after_after. reflexivity.
Qed.

(** X5. Without "all", once the project is initialized and every argument
    has resolved, clean goes through the targets in order and stops at the
    first builder that cannot be constructed or Clean that fails.  When the
    targets before [t] have been cleaned: if no builder can be constructed
    for [t], the command ends there through NewtUsage with the error of
    the construction; if Clean fails for [t], it ends right after that
    Clean with its error; in both cases nothing is called for the targets
    after [t]; and if Clean succeeds the command goes on with the targets
    after [t].  Over the whole run, builders are constructed for an initial
    segment of the targets, Clean is invoked with each of them and with no
    other, in that order, nothing is removed with os.RemoveAll, and the
    command returns only when Clean was invoked for every target. *)
Theorem clean_stops_at_first_failure {C : Collab} (cmd : Command)
    (args : list string) (w w1 : World) (ts : list Target) (w2 : World) :
  ~ In TARGET_KEYWORD_ALL args ->
  project_Initialize w = (None, w1) ->
  resolveExplicitTargets args w1 = Some (ts, w2) ->
  let run := cleanRunCmd cmd args w in
  cleans (trace run) = map snd (builders (trace run))
  /\ map fst (builders (trace run))
     = firstn (List.length (cleans (trace run))) ts
  /\ removals (trace run) = []
  /\ (outcome run = Ret tt -> List.length (cleans (trace run)) = List.length ts)
  /\ (List.length (cleans (trace run)) < List.length ts ->
      outcome run = Exit usage_exit_status)
  /\ let tcl := trace (cleanClassify cmd args false [] w1) in
     map fst (resolvedTargets tcl) = args
     /\ map snd (resolvedTargets tcl) = ts
     /\ forall before t rest w3 t1,
          ts = before ++ t :: rest ->
          cleanTargets cmd before w2 = (Ret tt, w3, t1) ->
          (forall e w4,
              builder_NewBuilder t w3 = (inr e, w4) ->
              run = (Exit usage_exit_status, w4,
                     EvInitialize None
                       :: tcl ++ t1
                          ++ [EvNewBuilder t (inr e);
                              EvUsage (Some cmd) (Some e)]))
          /\ (forall b w4 e w5,
              builder_NewBuilder t w3 = (inl b, w4) ->
              Builder_Clean b w4 = (Some e, w5) ->
              run = (Exit usage_exit_status, w5,
                     EvInitialize None
                       :: tcl ++ t1
                          ++ [EvNewBuilder t (inl b); EvClean b (Some e);
                              EvUsage (Some cmd) (Some e)]))
          /\ (forall b w4 w5,
              builder_NewBuilder t w3 = (inl b, w4) ->
              Builder_Clean b w4 = (None, w5) ->
              run = after (EvInitialize None
                             :: tcl ++ t1
                                ++ [EvNewBuilder t (inl b); EvClean b None])
                      (cleanTargets cmd rest w5)).
Proof.
  intros Hall Hinit Hre. cbv zeta.
  pose proof (clean_loop_prefix cmd args w w1 ts w2 Hall Hinit Hre) as Hp.
  cbv zeta in Hp. destruct Hp as (H1 & H2 & H3 & H4 & H5).
  refine (conj H1 (conj H2 (conj H3 (conj H4 (conj H5 _))))).
  assert (Hnone : hasAll args = false).
  { destruct (hasAll args) eqn:E; [| reflexivity].
    apply hasAll_In in E. contradiction. }
  destruct (cleanClassify_ok cmd args false [] w1 ts w2 Hre)
    as (tcl & E & Hnames & Htargets).
  rewrite (explicitNames_no_wildcard _ Hnone) in Hnames.
  rewrite E. unfold trace at 1 2 3 4 5. cbn [snd].
  split; [assumption |]. split; [assumption |].
  intros before t rest w3 t1 -> Hbefore.
  assert (Hne : args <> []).
  { intros ->. cbn in Hre. injection Hre as Hts _.
    destruct before; discriminate. }
  assert (Erun : cleanRunCmd cmd args w
                 = after (EvInitialize None :: tcl ++ t1)
                     (cleanTargets cmd (t :: rest) w3)).
  { rewrite (cleanRunCmd_run cmd args w w1 Hinit Hne), E, Hnone.
    cbn [orb app]. rewrite (cleanTargets_app cmd before (t :: rest) _ _ _ Hbefore).
    rewrite !after_after. reflexivity. }
  rewrite Erun. cbn [cleanTargets]. unfold NewBuilder, Clean.
  split; [| split].
  - intros e w4 Hb. step Hb. unfold after, outcome, final, trace.
    cbn [fst snd app]. now rewrite <- !app_assoc.
  - intros b w4 e w5 Hb Hc. step Hb. step Hc.
    unfold after, outcome, final, trace.
    cbn [fst snd app]. now rewrite <- !app_assoc.
  - intros b w4 w5 Hb Hc. step Hb. step Hc. rewrite !after_after.
    cbn [app]. now rewrite <- !app_assoc.
Qed.

Lemma clean_stops_at_first_failure_witness :
  let args := ["blinky"; "broken"; "nobsp"] in
  let args' := ["blinky"; "nobsp"; "broken"] in
  cleanRunCmd (C := ToyFaulty.collab) Toy.cmd_clean args ToyFaulty.w0
  = (Exit 1%Z,
     snd (Toy.clean (ToyFaulty.bld "blinky" 0) ToyFaulty.w0),
     [EvInitialize None;
      EvResolveTarget "blinky" (Some (ToyFaulty.tgt "blinky" 0));
      EvResolveTarget "broken" (Some (ToyFaulty.tgt "broken" 0));
      EvResolveTarget "nobsp" (Some (ToyFaulty.tgt "nobsp" 0));
      EvNewBuilder (ToyFaulty.tgt "blinky" 0) (inl (ToyFaulty.bld "blinky" 0));
      EvClean (ToyFaulty.bld "blinky" 0) None;
      EvNewBuilder (ToyFaulty.tgt "broken" 0) (inl (ToyFaulty.bld "broken" 0));
      EvClean (ToyFaulty.bld "broken" 0) (Some (NewNewtError "cannot clean"));
      EvUsage (Some Toy.cmd_clean) (Some (NewNewtError "cannot clean"))])
  /\ cleanRunCmd (C := ToyFaulty.collab) Toy.cmd_clean args' ToyFaulty.w0
     = (Exit 1%Z,
        snd (Toy.clean (ToyFaulty.bld "blinky" 0) ToyFaulty.w0),
        [EvInitialize None;
         EvResolveTarget "blinky" (Some (ToyFaulty.tgt "blinky" 0));
         EvResolveTarget "nobsp" (Some (ToyFaulty.tgt "nobsp" 0));
         EvResolveTarget "broken" (Some (ToyFaulty.tgt "broken" 0));
         EvNewBuilder (ToyFaulty.tgt "blinky" 0) (inl (ToyFaulty.bld "blinky" 0));
         EvClean (ToyFaulty.bld "blinky" 0) None;
         EvNewBuilder (ToyFaulty.tgt "nobsp" 0) (inr (NewNewtError "no bsp"));
         EvUsage (Some Toy.cmd_clean) (Some (NewNewtError "no bsp"))]).
Proof.
  intros args args'.
  assert (Hnone : ~ In TARGET_KEYWORD_ALL args).
  { intros [H | [H | [H | []]]]; discriminate. }
  assert (Hnone' : ~ In TARGET_KEYWORD_ALL args').
  { intros [H | [H | [H | []]]]; discriminate. }
  set (w3 := snd (Toy.clean (ToyFaulty.bld "blinky" 0) ToyFaulty.w0)).
  assert (Hbefore : cleanTargets (C := ToyFaulty.collab) Toy.cmd_clean
                      [ToyFaulty.tgt "blinky" 0] ToyFaulty.w0
                    = (Ret tt, w3,
                       [EvNewBuilder (ToyFaulty.tgt "blinky" 0)
                          (inl (ToyFaulty.bld "blinky" 0));
                        EvClean (ToyFaulty.bld "blinky" 0) None]))
    by reflexivity.
  destruct (clean_stops_at_first_failure (C := ToyFaulty.collab) Toy.cmd_clean
              args ToyFaulty.w0 ToyFaulty.w0
              [ToyFaulty.tgt "blinky" 0; ToyFaulty.tgt "broken" 0;
               ToyFaulty.tgt "nobsp" 0]
              ToyFaulty.w0 Hnone eq_refl eq_refl)
    as (_ & _ & _ & _ & _ & _ & _ & H).
  destruct (H [ToyFaulty.tgt "blinky" 0] (ToyFaulty.tgt "broken" 0)
              [ToyFaulty.tgt "nobsp" 0] w3 _ eq_refl Hbefore)
    as (_ & Hclean & _).
  destruct (clean_stops_at_first_failure (C := ToyFaulty.collab) Toy.cmd_clean
              args' ToyFaulty.w0 ToyFaulty.w0
              [ToyFaulty.tgt "blinky" 0; ToyFaulty.tgt "nobsp" 0;
               ToyFaulty.tgt "broken" 0]
              ToyFaulty.w0 Hnone' eq_refl eq_refl)
    as (_ & _ & _ & _ & _ & _ & _ & H').
  destruct (H' [ToyFaulty.tgt "blinky" 0] (ToyFaulty.tgt "nobsp" 0)
              [ToyFaulty.tgt "broken" 0] w3 _ eq_refl Hbefore)
    as (Hbuilder & _).
  split.
  - rewrite (Hclean (ToyFaulty.bld "broken" 0) w3
               (NewNewtError "cannot clean") w3 eq_refl eq_refl).
    reflexivity.
  - rewrite (Hbuilder (NewNewtError "no bsp") w3 eq_refl). reflexivity.
Defined.

(** X3. The test command never builds, cleans or removes anything, and the
    clean command never builds or tests, never resets the project and never
    resolves or lists packages, whatever their arguments and outcome. *)
Theorem test_and_clean_keep_apart {C : Collab} (cmd : Command)
    (args : list string) (w : World) :
  existsb isBuildOrClean (trace (testRunCmd cmd args w)) = false
  /\ existsb isBuildOrTest (trace (cleanRunCmd cmd args w)) = false.
Proof.
  split.
  - destruct (testRunCmd_trace cmd args w)
      as (r & tsel & packs & w2 & tend & -> & Hsel & Hend).
    cbn [existsb isBuildOrClean orb]. rewrite !existsb_app.
    rewrite (forallb_existsb_disjoint isSelectEvent isBuildOrClean tsel),
      testCycles_never_builds,
      (forallb_existsb_disjoint isReportEvent isBuildOrClean tend);
      try assumption; try reflexivity;
      intros ev; destruct ev; try discriminate; reflexivity.
  - destruct (project_Initialize w) as [[e |] w1] eqn:Hinit.
    { unfold cleanRunCmd, Initialize. step Hinit. reflexivity. }
    destruct args as [| a args].
    { unfold cleanRunCmd, Initialize. step Hinit. reflexivity. }
    assert (Hne : a :: args <> []) by discriminate.
    rewrite (cleanRunCmd_run cmd (a :: args) w w1 Hinit Hne).
    pose proof (cleanClassify_trace cmd (a :: args) false [] w1) as Htr.
    destruct (cleanClassify cmd (a :: args) false [] w1)
      as [[[[[|] targets] | st |] w2] t1];
      unfold trace in Htr; cbn [snd] in Htr;
      apply (forallb_existsb_disjoint isResolveOrUsage isBuildOrTest) in Htr;
      try (intros ev; destruct ev; try discriminate; reflexivity).
    + rewrite after_after. unfold after, trace. cbn [snd app].
      cbn [existsb isBuildOrTest orb]. rewrite !existsb_app, Htr.
      destruct (os_RemoveAll (builder_BinRoot w2) w2) as [[e |] w3]; reflexivity.
    + destruct (cleanTargets_any cmd targets w2) as (_ & _ & _ & _ & Hev).
      apply (forallb_existsb_disjoint isCleanLoopEvent isBuildOrTest) in Hev;
        [| intros ev; destruct ev; try discriminate; reflexivity].
      rewrite after_after. unfold after, trace in *. cbn [snd app].
      cbn [existsb isBuildOrTest orb]. now rewrite !existsb_app, Htr, Hev.
    + unfold after, trace. cbn [snd app]. cbn [existsb isBuildOrTest orb].
      exact Htr.
    + unfold after, trace. cbn [snd app]. cbn [existsb isBuildOrTest orb].
      exact Htr.
Qed.

(** X7. Before anything is resolved, clean and test give up alike on a
    project that does not initialize, with the error of the initialization
    and the usage of the command; with no argument clean ends with "Must
    specify target" and test with the usage alone and no error.  In each
    case the status is not zero and nothing but the initialization has been
    called. *)
Theorem clean_and_test_refuse_early {C : Collab} (cmd : Command)
    (args : list string) (w : World) :
  (forall e w1,
      project_Initialize w = (Some e, w1) ->
      cleanRunCmd cmd args w
      = (Exit usage_exit_status, w1,
         [EvInitialize (Some e); EvUsage (Some cmd) (Some e)])
      /\ testRunCmd cmd args w
         = (Exit usage_exit_status, w1,
            [EvInitialize (Some e); EvUsage (Some cmd) (Some e)]))
  /\ (forall w1,
      project_Initialize w = (None, w1) ->
      cleanRunCmd cmd [] w
      = (Exit usage_exit_status, w1,
         [EvInitialize None;
          EvUsage (Some cmd) (Some (NewNewtError "Must specify target"))])
      /\ testRunCmd cmd [] w
         = (Exit usage_exit_status, w1,
            [EvInitialize None; EvUsage (Some cmd) None]))
  /\ usage_exit_status <> 0%Z.
Proof.
  split; [| split; [| exact usage_exit_status_nonzero]].
  - intros e w1 H. unfold cleanRunCmd, testRunCmd, Initialize.
    split; step H; reflexivity.
  - intros w1 H. unfold cleanRunCmd, testRunCmd, Initialize.
    split; step H; reflexivity.
Qed.

Lemma clean_and_test_refuse_early_witness :
  testRunCmd Toy.cmd_test ["all"] Toy.w_empty
  = (Exit 1%Z, Toy.w_empty,
     [EvInitialize (Some (NewNewtError "no project"));
      EvUsage (Some Toy.cmd_test) (Some (NewNewtError "no project"))])
  /\ cleanRunCmd Toy.cmd_clean [] Toy.w0
     = (Exit 1%Z, Toy.w0,
        [EvInitialize None;
         EvUsage (Some Toy.cmd_clean)
           (Some (NewNewtError "Must specify target"))]).
Proof.
  destruct (clean_and_test_refuse_early (C := Toy.collab) Toy.cmd_test
              ["all"] Toy.w_empty) as (H1 & _).
  destruct (clean_and_test_refuse_early (C := Toy.collab) Toy.cmd_clean
              [] Toy.w0) as (_ & H2 & _).
  split.
  - exact (proj2 (H1 (NewNewtError "no project") Toy.w_empty eq_refl)).
  - exact (proj1 (H2 Toy.w0 eq_refl)).
Defined.

(** The check of the generations is no empty one: it refuses a second test
    with a builder already used, and a test after a reset with what was
    resolved before the reset. *)
Lemma generationSafe_refuses_reuse :
  let t := Toy.tgt "unittest" 1 in
  let b := Toy.bld "unittest" 1 in
  let p := Toy.pkg 1 "libs/os" "os" in
  ~ generationSafe nothingFresh
      [EvResetProject; EvResolveTarget "unittest" (Some t);
       EvNewBuilder t (inl b); EvResolvePackage "libs/os" (inl p);
       EvTest b p None; EvTest b p None]
  /\ ~ generationSafe nothingFresh
        [EvResetProject; EvResolveTarget "unittest" (Some t);
         EvNewBuilder t (inl b); EvResolvePackage "libs/os" (inl p);
         EvResetProject; EvTest b p None].
Proof.
  cbv zeta. split; cbn; intros H.
  - destruct H as (_ & _ & _ & H & _). discriminate.
  - destruct H as (_ & H & _). discriminate.
Qed.
